(** * hello-world-python: the greeter server of [sites/hello-world-python/app.py]

    The program is thirteen lines:

      - a request handler class [Handler] whose [do_GET] answers every GET
        with a fixed page;
      - three module-level statements that resolve the port from the
        environment, print a start-up line and start an [HTTPServer].

    [Py] models the Python built-ins the program applies to its data
    ([int] on an environment string, [str] of an integer as used by the
    f-string).  [Http] models the part of the handler base class the
    program calls ([send_response], [send_header], [end_headers],
    [wfile.write]) and the handler itself.  [App] models the module-level
    statements as a program in a small exception-and-state monad, and the
    serving loop over a finite prefix of the incoming connections.
    [Runtime] holds the state of the process and the monad both run in.
    [Literal] states, after the language reference, which strings [int]
    accepts; the parser of [Py] is proved to accept exactly those. *)

From Stdlib Require Import ZArith String Ascii List Lia.
From stdpp Require Import base option list gmap strings.

Open Scope Z_scope.

(** ** Python built-ins *)

Module Py.

(** A Python [str] is modelled as a Rocq [string]; each character stands for
    the code point of the same number, so the model covers the values whose
    code points are below 256. *)

Definition code (c : ascii) : nat := nat_of_ascii c.

(** [Py_ISSPACE]: tab, line feed, vertical tab, form feed, carriage return
    and space. *)
Definition is_space (c : ascii) : bool :=
  (9 <=? code c)%nat && (code c <=? 13)%nat || (code c =? 32)%nat.

(** The code points from 127 up that [Py_UNICODE_ISSPACE] accepts in this
    range: NEL (0x85) and the no-break space (0xA0). *)
Definition unicode_isspace (c : ascii) : bool :=
  (code c =? 133)%nat || (code c =? 160)%nat.

(** What [int] does to a [str] before it parses it
    ([_PyUnicode_TransformDecimalAndSpaceToASCII]), code point by code
    point: below 127 unchanged, a Unicode space becomes a space, a Unicode
    decimal digit becomes its ASCII digit (there is none between 127 and
    255), anything else becomes [?], which no integer literal contains. *)
Definition to_ascii (c : ascii) : ascii :=
  if (code c <? 127)%nat then c
  else if unicode_isspace c then " "%char
  else "?"%char.

(** [_PyLong_DigitValue] for base 10. *)
Definition digit_value (c : ascii) : option nat :=
  if (48 <=? code c)%nat && (code c <=? 57)%nat
  then Some (code c - 48)%nat else None.

Definition is_underscore (c : ascii) : bool := (code c =? 95)%nat.

Fixpoint skip_space (s : list ascii) : list ascii :=
  match s with
  | c :: s' => if is_space c then skip_space s' else s
  | [] => []
  end.

(** The scanning loop of [long_from_string_base]: walks over digits and
    underscores, [prev] being the character before the cursor.  A doubled
    underscore and an underscore right before the end of the run are
    errors ([None]).  Otherwise the digits met and the unread rest. *)
Fixpoint scan_digits (prev : ascii) (s : list ascii)
  : option (list nat * list ascii) :=
  match s with
  | c :: s' =>
      if is_underscore c then
        if is_underscore prev then None else scan_digits c s'
      else
        match digit_value c with
        | Some d =>
            match scan_digits c s' with
            | Some (ds, rest) => Some (d :: ds, rest)
            | None => None
            end
        | None => if is_underscore prev then None else Some ([], s)
        end
  | [] => if is_underscore prev then None else Some ([], [])
  end.

(** The value of a run of decimal digits, most significant first. *)
Definition value_of (ds : list nat) : Z :=
  fold_left (fun acc d => 10 * acc + Z.of_nat d) ds 0.

(** [sys.int_info]: the number of digits is checked only above
    [str_digits_check_threshold].  The limit of the interpreter
    ([sys.get_int_max_str_digits()]) is 0, which turns the check off, or
    a number from the threshold up; the interpreter refuses to be set to
    anything in between, so a limit is given by what it adds to the
    threshold.  The default is 4300. *)
Definition str_digits_check_threshold : nat := 640.

Inductive int_max_str_digits : Type :=
| Unlimited
| AtMost (above_threshold : nat).

Definition max_str_digits (m : int_max_str_digits) : nat :=
  match m with
  | Unlimited => 0
  | AtMost k => str_digits_check_threshold + k
  end.

Definition default_max_str_digits : int_max_str_digits := AtMost 3660.

(** The guard of both conversions: more than the threshold, the limit is
    on, and more than the limit. *)
Definition exceeds (m : int_max_str_digits) (checked counted : nat) : bool :=
  (str_digits_check_threshold <? checked)%nat
  && (0 <? max_str_digits m)%nat
  && (max_str_digits m <? counted)%nat.

Inductive exn : Type :=
| ValueError
| OverflowError
| AttributeError
| OSError (errno : Z).

Inductive result (A : Type) : Type :=
| Ok (a : A)
| Raise (e : exn).
Arguments Ok {A} a.
Arguments Raise {A} e.

(** [long_from_string_base] in base 10, on the characters after the sign:
    no leading underscore, the digit run, which is not empty, trailing
    white space, then the end; the digit limit; the signed value. *)
Definition long_from_string_base (m : int_max_str_digits) (sign : Z)
  (s : list ascii) : result Z :=
  match s with
  | c :: _ => if is_underscore c then Raise ValueError else
      match scan_digits "000"%char s with
      | None => Raise ValueError
      | Some ([], _) => Raise ValueError
      | Some (ds, rest) =>
          match skip_space rest with
          | _ :: _ => Raise ValueError
          | [] =>
              if exceeds m (length ds) (length ds) then Raise ValueError
              else Ok (sign * value_of ds)
          end
      end
  | [] => Raise ValueError
  end.

(** [PyLong_FromString] in base 10 on the transformed characters: leading
    white space, one optional sign, then the digits. *)
Definition long_from_string (m : int_max_str_digits) (s : list ascii)
  : result Z :=
  match skip_space s with
  | c :: r =>
      if (code c =? 43)%nat then long_from_string_base m 1 r
      else if (code c =? 45)%nat then long_from_string_base m (-1) r
      else long_from_string_base m 1 (c :: r)
  | [] => long_from_string_base m 1 []
  end.

(** [int(s)] for a [str]. *)
Definition int_of_str (m : int_max_str_digits) (s : string) : result Z :=
  long_from_string m (map to_ascii (list_ascii_of_string s)).

(** [int(x)] when [x] already is an [int]. *)
Definition int_of_int (z : Z) : result Z := Ok z.

(** The decimal digits of a natural number, least significant first; the
    fuel is the number of binary digits, which is enough. *)
Fixpoint digits_le (fuel : nat) (n : Z) : list nat :=
  match fuel with
  | O => []
  | S f =>
      if n <? 10 then [Z.to_nat n]
      else Z.to_nat (n mod 10) :: digits_le f (n / 10)
  end.

Definition decimal (n : Z) : list nat :=
  rev (digits_le (S (Z.to_nat (Z.log2 n))) n).

Definition digit_char (d : nat) : ascii := ascii_of_nat (48 + d).

(** [str(n)], which is what [f"{n}"] formats: a minus sign for a negative
    number, then the digits of the magnitude ([long_to_decimal_string]).
    The length with the sign is compared with the threshold, the length
    without it with the limit. *)
Definition str_of_int (m : int_max_str_digits) (n : Z) : result string :=
  let ds := decimal (Z.abs n) in
  let negative := if n <? 0 then 1%nat else 0%nat in
  if exceeds m (negative + length ds) (length ds) then Raise ValueError
  else Ok (string_of_list_ascii
             ((if n <? 0 then ["-"%char] else []) ++ map digit_char ds)).

(** [str.lower] on the code points below 256: the ASCII capitals and the
    capitals of Latin-1 (0xC0 to 0xDE without the multiplication sign)
    move up by 32, everything else stays. *)
Definition lower_char (c : ascii) : ascii :=
  if ((65 <=? code c)%nat && (code c <=? 90)%nat)
     || ((192 <=? code c)%nat && (code c <=? 222)%nat
         && negb (code c =? 215)%nat)
  then ascii_of_nat (code c + 32) else c.

Fixpoint lower (s : string) : string :=
  match s with
  | EmptyString => EmptyString
  | String c s' => String (lower_char c) (lower s')
  end.






End Py.

(** ** The process *)

Module Runtime.
Import Py.

(** The two kinds of value that reach [int]: the [str] found in the
    environment, or the [int] default [3000]. *)
Inductive pyobj : Type :=
| PyInt (z : Z)
| PyStr (s : string).

(** The steps of the start-up that the outside can tell apart, recorded in
    the order in which they happen. *)
Inductive event : Type :=
| EvInt (x : pyobj)
| EvPrint (text : string)
| EvBind (host : string) (port : Z).

(** What the operating system answers when asked to bind and listen on an
    address: nothing when it grants the request, the error number when it
    refuses (address in use, permission denied, ...); and the port it
    picks when it is asked for port 0. *)
Record OS : Type := mkOS {
  bind_errno : string -> Z -> option Z;
  ephemeral_port : Z
}.

(** What the library writes to standard error: a line of the access log
    (the host of the client, the time, the request line and the status
    code), or the report of an exception that ended a connection. *)
Inductive log_entry : Type :=
| LogRequest (host : string) (time : string) (requestline : string) (code : Z)
| LogException (host : string) (e : exn).

(** The state of the running process: the environment and the interpreter
    setting it was started with, the module global [port] (unset until
    line 11 has run), what was written to standard output and to standard
    error, the host asked for and the port bound of the listening socket
    once there is one, and the record of events.

    The digit limit [int_limit] is the one the interpreter has derived
    from its command line and environment before the program runs
    ([configured_limit]); the statements about one run hold for every
    limit. *)
Record Process : Type := mkProcess {
  environ : gmap string string;
  int_limit : int_max_str_digits;
  port : option Z;
  stdout : string;
  stderr : list log_entry;
  listening : option (string * Z);
  trace : list event
}.

(** The process as the interpreter starts it. *)
Definition boot (env : gmap string string) (m : int_max_str_digits)
  : Process :=
  {| environ := env; int_limit := m; port := None; stdout := EmptyString;
     stderr := []; listening := None; trace := [] |}.


(** Statements run in order on a state; a raised exception ends the run
    unless something catches it, and the program has no [try]. *)
Definition ST (S A : Type) : Type := S -> result A * S.

#[global] Instance ST_ret {S : Type} : MRet (ST S) := fun A a s => (Ok a, s).

#[global] Instance ST_bind {S : Type} : MBind (ST S) := fun A B f c s =>
  match c s with
  | (Ok a, s') => f a s'
  | (Raise e, s') => (Raise e, s')
  end.

Abbreviation M := (ST Process).

Definition record (e : event) (p : Process) : Process :=
  {| environ := environ p; int_limit := int_limit p; port := port p;
     stdout := stdout p; stderr := stderr p; listening := listening p;
     trace := trace p ++ [e] |}.

(** One more entry on standard error. *)
Definition log (entry : log_entry) (p : Process) : Process :=
  {| environ := environ p; int_limit := int_limit p; port := port p;
     stdout := stdout p; stderr := stderr p ++ [entry];
     listening := listening p; trace := trace p |}.

(** Several more entries on standard error. *)
Definition logs (entries : list log_entry) (p : Process) : Process :=
  {| environ := environ p; int_limit := int_limit p; port := port p;
     stdout := stdout p; stderr := stderr p ++ entries;
     listening := listening p; trace := trace p |}.

End Runtime.

(** ** The request handler *)

Module Http.
Import Py Runtime.

(** A request as [parse_request] hands it to a [do_*] method: the method
    name in [self.command], the target in [self.path], the request line
    as received in [self.requestline], the header fields in
    [self.headers], and the protocol version.  A request line of two
    words has no version; one of three words has the version text and the
    two numbers read from it.  Requests that [parse_request] refuses never
    reach a [do_*] method and are no [Request]. *)
Record Request : Type := mkRequest {
  command : string;
  path : string;
  requestline : string;
  version : option (string * (Z * Z));
  headers : list (string * string)
}.

(** Class attributes of the handler base classes. *)
Definition default_request_version : string := "HTTP/0.9".
Definition protocol_version : string := "HTTP/1.0".
Definition server_version : string := "SimpleHTTP/0.6".

(** [self.request_version]. *)
Definition request_version (r : Request) : string :=
  match version r with
  | Some (text, _) => text
  | None => default_request_version
  end.

(** What the clock gives while one request is answered: the text of
    [date_time_string()] and that of [log_date_time_string()]. *)
Record Clock : Type := mkClock {
  date_time_string : string;
  log_date_time_string : string
}.

(** What the installed library brings along: the version of the
    interpreter as it appears in the [Server] field, and the short
    messages of the status codes ([responses]). *)
Record Library : Type := mkLibrary {
  sys_version : string;
  responses : Z -> option string
}.

(** The pieces of a response head.  The base class renders each as one
    line ending in CR LF; the model keeps them structured. *)
Inductive line : Type :=
| StatusLine (protocol : string) (code : Z) (message : string)
| HeaderLine (keyword value : string)
| BlankLine.

(** What has gone out on the connection, in order. *)
Inductive chunk : Type :=
| Head (l : line)
| Body (b : string).

(** The handler object, one per connection: the address of the client,
    the request being served (none before the first one is parsed),
    [self.close_connection], the buffered head ([self._headers_buffer],
    an attribute that does not exist until something is buffered) and
    the output stream ([self.wfile]). *)
Record Handler : Type := mkHandler {
  client_address : string * Z;
  request : option Request;
  close_connection : bool;
  headers_buffer : option (list line);
  wfile : list chunk
}.

Definition new_handler (client : string * Z) : Handler :=
  {| client_address := client; request := None; close_connection := true;
     headers_buffer := None; wfile := [] |}.

(** A method of the handler runs on the handler object and on the
    process it lives in. *)
Record World : Type := mkWorld {
  process : Process;
  self : Handler
}.

Abbreviation Method := (ST World).

Definition set_request (r : Request) : Method unit := fun w =>
  (Ok tt,
   {| process := process w;
      self := {| client_address := client_address (self w);
                 request := Some r;
                 close_connection := close_connection (self w);
                 headers_buffer := headers_buffer (self w);
                 wfile := wfile (self w) |} |}).

Definition set_close_connection (b : bool) : Method unit := fun w =>
  (Ok tt,
   {| process := process w;
      self := {| client_address := client_address (self w);
                 request := request (self w);
                 close_connection := b;
                 headers_buffer := headers_buffer (self w);
                 wfile := wfile (self w) |} |}).

Definition set_headers_buffer (b : list line) : Method unit := fun w =>
  (Ok tt,
   {| process := process w;
      self := {| client_address := client_address (self w);
                 request := request (self w);
                 close_connection := close_connection (self w);
                 headers_buffer := Some b;
                 wfile := wfile (self w) |} |}).

(** [self.wfile.write(...)]. *)
Definition write (cs : list chunk) : Method unit := fun w =>
  (Ok tt,
   {| process := process w;
      self := {| client_address := client_address (self w);
                 request := request (self w);
                 close_connection := close_connection (self w);
                 headers_buffer := headers_buffer (self w);
                 wfile := wfile (self w) ++ cs |} |}).

(** Reading the attributes that [parse_request] sets: they do not exist
    before. *)
Definition get_request : Method Request := fun w =>
  match request (self w) with
  | Some r => (Ok r, w)
  | None => (Raise AttributeError, w)
  end.

(** Raising an exception; running a step on the whole world; writing to
    [sys.stderr]. *)
Definition raise {A : Type} (e : exn) : Method A := fun w => (Raise e, w).

Definition call (f : World -> World) : Method unit := fun w => (Ok tt, f w).

Definition stderr_write (entry : log_entry) : Method unit := fun w =>
  (Ok tt, {| process := log entry (process w); self := self w |}).

Definition get_client_address : Method (string * Z) := fun w =>
  (Ok (client_address (self w)), w).

Definition get_close_connection : Method bool := fun w =>
  (Ok (close_connection (self w)), w).

Definition get_headers_buffer : Method (option (list line)) := fun w =>
  (Ok (headers_buffer (self w)), w).

Section Base.

Variable lib : Library.
Variable now : Clock.

(** [self.log_request(code)]: one line of the access log on standard
    error. *)
Definition log_request (code : Z) : Method unit :=
  r ← get_request;
  client ← get_client_address;
  stderr_write (LogRequest (fst client) (log_date_time_string now)
                  (requestline r) code).

(** [self._headers_buffer.append(...)] after the attribute has been
    created if it was missing. *)
Definition buffer_line (l : line) : Method unit :=
  b ← get_headers_buffer;
  set_headers_buffer (default [] b ++ [l]).

(** [self.send_response_only(code)]. *)
Definition send_response_only (code : Z) : Method unit :=
  r ← get_request;
  if negb (String.eqb (request_version r) "HTTP/0.9") then
    buffer_line (StatusLine protocol_version code
                   (default EmptyString (responses lib code)))
  else mret tt.

(** [self.send_header(keyword, value)]. *)
Definition send_header (keyword value : string) : Method unit :=
  r ← get_request;
  (if negb (String.eqb (request_version r) "HTTP/0.9") then
     buffer_line (HeaderLine keyword value)
   else mret tt);;
  if String.eqb (lower keyword) "connection" then
    if String.eqb (lower value) "close" then set_close_connection true
    else if String.eqb (lower value) "keep-alive"
         then set_close_connection false
         else mret tt
  else mret tt.

(** [self.flush_headers()]. *)
Definition flush_headers : Method unit :=
  b ← get_headers_buffer;
  match b with
  | Some buffered => write (map Head buffered);; set_headers_buffer []
  | None => mret tt
  end.

(** [self.end_headers()]; the [append] needs the attribute to exist. *)
Definition end_headers : Method unit :=
  r ← get_request;
  if negb (String.eqb (request_version r) "HTTP/0.9") then
    b ← get_headers_buffer;
    match b with
    | Some buffered =>
        set_headers_buffer (buffered ++ [BlankLine]);; flush_headers
    | None => raise AttributeError
    end
  else mret tt.

(** [self.version_string()]. *)
Definition version_string : string :=
  server_version +:+ " " +:+ sys_version lib.

(** [self.send_response(code)]. *)
Definition send_response (code : Z) : Method unit :=
  log_request code;;
  send_response_only code;;
  send_header "Server" version_string;;
  send_header "Date" (date_time_string now).

(** [Handler.do_GET] (app.py, lines 5 to 9). *)
Definition do_GET : Method unit :=
  send_response 200;;
  send_header "Content-type" "text/html";;
  end_headers;;
  write [Body "<h1>Hello from Python!</h1>"].

End Base.

(** [headers.get(name, default)]: the value of the first field whose name
    is [name], whatever the case of the letters. *)
Fixpoint headers_get (name fallback : string) (hs : list (string * string))
  : string :=
  match hs with
  | [] => fallback
  | (k, v) :: hs' =>
      if String.eqb (lower k) (lower name) then v
      else headers_get name fallback hs'
  end.

(** [version_number >= (1, 1)] on the numbers of the request line. *)
Definition version_at_least_1_1 (number : Z * Z) : bool :=
  (1 <? fst number) || ((fst number =? 1) && (1 <=? snd number)).

(** [self.protocol_version >= "HTTP/1.1"]. *)
Definition protocol_at_least_1_1 : bool :=
  String.leb "HTTP/1.1" protocol_version.

(** [self.close_connection] as [parse_request] leaves it. *)
Definition close_connection_of (r : Request) : bool :=
  let close := true in
  let close :=
    match version r with
    | Some (_, number) =>
        if version_at_least_1_1 number && protocol_at_least_1_1
        then false else close
    | None => close
    end in
  let conntype := headers_get "Connection" EmptyString (headers r) in
  if String.eqb (lower conntype) "close" then true
  else if String.eqb (lower conntype) "keep-alive" && protocol_at_least_1_1
       then false
       else close.

(** What [self.parse_request()] leaves in the handler when it accepts the
    request. *)
Definition parse_request (r : Request) : Method unit :=
  set_request r;;
  set_close_connection (close_connection_of r).

(** A response as a client reads it off the connection: a status line,
    the header fields up to the blank line, then the body, which is all
    that follows; or, without a status line, a body alone (the simple
    response of HTTP/0.9). *)
Record Response : Type := mkResponse {
  status : option Z;
  fields : list (string * string);
  body : string
}.

Fixpoint read_body (w : list chunk) : option string :=
  match w with
  | [] => Some EmptyString
  | Body b :: w' =>
      match read_body w' with
      | Some rest => Some (b +:+ rest)
      | None => None
      end
  | Head _ :: _ => None
  end.

Fixpoint read_fields (w : list chunk)
  : option (list (string * string) * string) :=
  match w with
  | Head (HeaderLine k v) :: w' =>
      match read_fields w' with
      | Some (fs, b) => Some ((k, v) :: fs, b)
      | None => None
      end
  | Head BlankLine :: w' =>
      match read_body w' with
      | Some b => Some ([], b)
      | None => None
      end
  | _ => None
  end.

Definition read_response (w : list chunk) : option Response :=
  match w with
  | Head (StatusLine _ code _) :: w' =>
      match read_fields w' with
      | Some (fs, b) =>
          Some {| status := Some code; fields := fs; body := b |}
      | None => None
      end
  | _ =>
      match read_body w with
      | Some b => Some {| status := None; fields := []; body := b |}
      | None => None
      end
  end.

(** The value of a header field of a response, first occurrence. *)
Fixpoint field (keyword : string) (fs : list (string * string))
  : option string :=
  match fs with
  | [] => None
  | (k, v) :: fs' => if String.eqb k keyword then Some v else field keyword fs'
  end.

(** The last byte of a byte string, if it has one. *)
Fixpoint last_byte (b : string) : option ascii :=
  match b with
  | EmptyString => None
  | String c EmptyString => Some c
  | String _ b' => last_byte b'
  end.

(** The head of the greeting as it is buffered. *)
Definition greeting_head (lib : Library) (now : Clock) : list line :=
  [StatusLine protocol_version 200
     (default EmptyString (responses lib 200));
   HeaderLine "Server" (version_string lib);
   HeaderLine "Date" (date_time_string now);
   HeaderLine "Content-type" "text/html";
   BlankLine].

(** The greeting page as it goes out on a connection to a request that
    carries a version. *)
Definition greeting (lib : Library) (now : Clock) : list chunk :=
  map Head (greeting_head lib now) ++ [Body "<h1>Hello from Python!</h1>"].

(** What a GET request is answered with. *)
Definition reply (lib : Library) (now : Clock) (r : Request) : list chunk :=
  if String.eqb (request_version r) "HTTP/0.9"
  then [Body "<h1>Hello from Python!</h1>"]
  else greeting lib now.

(** A response without its [Date] field. *)
Definition is_date (c : chunk) : bool :=
  match c with
  | Head (HeaderLine keyword _) => String.eqb keyword "Date"
  | _ => false
  end.

Definition without_date (w : list chunk) : list chunk :=
  List.filter (fun c => negb (is_date c)) w.

(** The same request with another target, hence another request line. *)
Definition with_path (p line : string) (r : Request) : Request :=
  {| command := command r; path := p; requestline := line;
     version := version r; headers := headers r |}.

End Http.

(** ** The program *)

Module App.
Import Py Runtime Http.

(** [os.environ.get(key, default)]. *)
Definition environ_get (key : string) (default : pyobj) : M pyobj :=
  fun p =>
    (Ok (match environ p !! key with
         | Some s => PyStr s
         | None => default
         end), p).

(** [int(x)]. *)
Definition int (x : pyobj) : M Z := fun p =>
  (match x with
   | PyInt z => int_of_int z
   | PyStr s => int_of_str (int_limit p) s
   end, record (EvInt x) p).

(** The assignment to the module global [port]. *)
Definition set_port (n : Z) : M unit := fun p =>
  (Ok tt,
   {| environ := environ p; int_limit := int_limit p; port := Some n;
      stdout := stdout p; stderr := stderr p; listening := listening p;
      trace := trace p |}).

(** [f"Server running on port {port}"]. *)
Definition startup_line (n : Z) : M string := fun p =>
  (match str_of_int (int_limit p) n with
   | Ok digits => Ok ("Server running on port " +:+ digits)
   | Raise e => Raise e
   end, p).

(** [print(text)]: the text and a line feed go to standard output. *)
Definition print (text : string) : M unit := fun p =>
  (Ok tt,
   record (EvPrint text)
     {| environ := environ p; int_limit := int_limit p; port := port p;
        stdout := stdout p +:+ text +:+ String "010"%char EmptyString;
        stderr := stderr p; listening := listening p; trace := trace p |}).

(** The port a socket is bound to after a bind on port [n]: [n] itself,
    or the port the operating system picks when [n] is 0. *)
Definition bound_port (os : OS) (n : Z) : Z :=
  if n =? 0 then ephemeral_port os else n.

(** [HTTPServer((host, port), Handler)]: the constructor binds and
    listens.  Python refuses a port outside 0..65535 before it asks the
    operating system; an error of the operating system is raised as
    [OSError]; after the bind the address is read back from the
    socket. *)
Definition HTTPServer (os : OS) (host : string) (n : Z) : M unit := fun p =>
  let p := record (EvBind host n) p in
  if (n <? 0) || (65535 <? n) then (Raise OverflowError, p)
  else
    match bind_errno os host n with
    | Some errno => (Raise (OSError errno), p)
    | None =>
        (Ok tt,
         {| environ := environ p; int_limit := int_limit p; port := port p;
            stdout := stdout p; stderr := stderr p;
            listening := Some (host, bound_port os n);
            trace := trace p |})
    end.

(** Lines 11 to 13 of app.py up to the call of [serve_forever]. *)
Definition main (os : OS) : M unit :=
  x ← environ_get "PORT" (PyInt 3000);
  n ← int x;
  set_port n;;
  text ← startup_line n;
  print text;;
  HTTPServer os EmptyString n.

(** A connection: the address of the client and the requests that arrive
    on it, each with what the clock gives when its turn comes. *)
Record Connection : Type := mkConnection {
  client : string * Z;
  arriving : list (Clock * Request)
}.

Section Serving.

Variable lib : Library.

(** What the handler inherits from [SimpleHTTPRequestHandler] for the
    methods it does not define itself. *)
Variable inherited : Clock -> World -> World.

(** [self.handle_one_request()] on a request that [parse_request]
    accepts: the dispatch on [self.command]; [Handler] defines [do_GET],
    everything else is inherited. *)
Definition handle_one_request (now : Clock) (r : Request) : Method unit :=
  parse_request r;;
  if String.eqb (command r) "GET" then do_GET lib now
  else call (inherited now).

(** The loop of [self.handle()]: one request after the other until
    [self.close_connection] holds; at the end of the input the flag is
    set. *)
Fixpoint handle_requests (requests : list (Clock * Request))
  : Method unit :=
  match requests with
  | [] => set_close_connection true
  | (now, r) :: rest =>
      handle_one_request now r;;
      done ← get_close_connection;
      if (done : bool) then mret tt else handle_requests rest
  end.

(** [self.handle()]. *)
Definition handle (requests : list (Clock * Request)) : Method unit :=
  set_close_connection true;;
  handle_requests requests.

(** One accepted connection: a handler object is made for it and handles
    it; an exception is caught by the server and reported on standard
    error.  The result is what went out on the connection. *)
Definition finish_request (c : Connection) : M (list chunk) := fun p =>
  let '(res, w) :=
    handle (arriving c) {| process := p; self := new_handler (client c) |} in
  match res with
  | Ok _ => (Ok (wfile (self w)), process w)
  | Raise e =>
      (Ok (wfile (self w)), log (LogException (fst (client c)) e) (process w))
  end.

(** [serve_forever()] on the connections that have come in so far, one
    after the other; the result is what went out on each. *)
Fixpoint serve_forever (incoming : list Connection)
  : M (list (list chunk)) :=
  match incoming with
  | [] => mret []
  | c :: rest =>
      w ← finish_request c;
      ws ← serve_forever rest;
      mret (w :: ws)
  end.

(** The whole program. *)
Definition program (os : OS) (incoming : list Connection)
  : M (list (list chunk)) :=
  main os;; serve_forever incoming.

End Serving.

(** The first request of a connection, if the client sends one. *)
Definition first_request (c : Connection) : option (Clock * Request) :=
  head (arriving c).

(** What goes out on a connection whose first request is a GET, and what
    the access log gets for it. *)
Definition answer (lib : Library) (c : Connection) : list chunk :=
  match first_request c with
  | Some (now, r) => reply lib now r
  | None => []
  end.

Definition logged (c : Connection) : list log_entry :=
  match first_request c with
  | Some (now, r) =>
      [LogRequest (fst (client c)) (log_date_time_string now)
         (requestline r) 200]
  | None => []
  end.

(** A connection on which nothing but GET is asked first. *)
Definition asks_GET (c : Connection) : Prop :=
  match first_request c with
  | Some (_, r) => command r = "GET"%string
  | None => True
  end.

(** The text of standard output cut into lines at each line feed. *)
Fixpoint split_lines (s : string) : list string :=
  match s with
  | EmptyString => []
  | String c s' =>
      if Ascii.eqb c "010"%char then EmptyString :: split_lines s'
      else
        match split_lines s' with
        | [] => [String c EmptyString]
        | l :: ls => String c l :: ls
        end
  end.

Fixpoint newline_free (s : string) : bool :=
  match s with
  | EmptyString => true
  | String c s' => negb (Ascii.eqb c "010"%char) && newline_free s'
  end.

(** The argument and the value of [int(os.environ.get("PORT", 3000))]. *)
Definition port_argument (env : gmap string string) : pyobj :=
  match env !! "PORT" with
  | Some s => PyStr s
  | None => PyInt 3000
  end.

Definition resolve_port (env : gmap string string) (m : int_max_str_digits)
  : result Z :=
  match port_argument env with
  | PyInt z => int_of_int z
  | PyStr s => int_of_str m s
  end.

(** The state in which the constructor of the server is called. *)
Definition printed (env : gmap string string) (m : int_max_str_digits)
  (n : Z) (digits : string) : Process :=
  {| environ := env; int_limit := m; port := Some n;
     stdout := ("Server running on port " +:+ digits)
               +:+ String "010"%char EmptyString;
     stderr := [];
     listening := None;
     trace := [EvInt (port_argument env);
               EvPrint ("Server running on port " +:+ digits)] |}.

(** The attempts to bind among the events. *)
Definition bind_events (t : list event) : list event :=
  List.filter (fun e => match e with EvBind _ _ => true | _ => false end) t.

(** Python's [needle in hay] on strings. *)
Definition contains (hay needle : string) : Prop :=
  exists before after, hay = before +:+ needle +:+ after.

End App.

(** ** The integer literals of [int], after the language reference *)

Module Literal.
Import Py.

(** [digit (["_"] digit)*], the part after the first digit, together with
    the digits it denotes. *)
Inductive digit_tail : list ascii -> list nat -> Prop :=
| tail_end : digit_tail [] []
| tail_digit c d s ds :
    digit_value c = Some d -> digit_tail s ds ->
    digit_tail (c :: s) (d :: ds)
| tail_underscore c d s ds :
    digit_value c = Some d -> digit_tail s ds ->
    digit_tail ("_"%char :: c :: s) (d :: ds).

Inductive digit_part : list ascii -> list nat -> Prop :=
| digit_part_intro c d s ds :
    digit_value c = Some d -> digit_tail s ds ->
    digit_part (c :: s) (d :: ds).

Inductive sign_of : list ascii -> Z -> Prop :=
| sign_none : sign_of [] 1
| sign_plus : sign_of ["+"%char] 1
| sign_minus : sign_of ["-"%char] (-1).

(** White space, an optional sign, the digit part, white space; as many
    digits as the interpreter allows; the value. *)
Inductive int_literal (space : ascii -> bool) (m : int_max_str_digits)
  : list ascii -> Z -> Prop :=
| int_literal_intro ws1 sg sigma body ds ws2 :
    forallb space ws1 = true ->
    sign_of sg sigma ->
    digit_part body ds ->
    forallb space ws2 = true ->
    exceeds m (length ds) (length ds) = false ->
    int_literal space m (ws1 ++ sg ++ body ++ ws2) (sigma * value_of ds).

(** Where the digit run may stop: at the end, or before a character that
    is neither an underscore nor a digit. *)
Definition stops (rest : list ascii) : Prop :=
  match rest with
  | [] => True
  | c :: _ => is_underscore c = false /\ digit_value c = None
  end.

(** White space for [int] on a [str]. *)
Definition py_space (c : ascii) : bool := is_space c || unicode_isspace c.

(** The strings that denote the integer [n]. *)
Definition denotes (m : int_max_str_digits) (s : string) (n : Z) : Prop :=
  int_literal py_space m (list_ascii_of_string s) n.

End Literal.

Import Py Literal Runtime Http App.

(** * Properties *)

(** ** Characters *)

Section Characters.

Lemma digit_value_code c d :
  digit_value c = Some d -> (48 <= code c <= 57)%nat /\ d = (code c - 48)%nat.
Proof.
  unfold digit_value.
  destruct (Nat.leb_spec 48 (code c)), (Nat.leb_spec (code c) 57);
    simpl; intros Hd; inversion Hd; lia.
Qed.

Lemma digit_value_lt c d : digit_value c = Some d -> (d < 10)%nat.
Proof. intros H. apply digit_value_code in H. lia. Qed.

Lemma digit_not_underscore c d :
  digit_value c = Some d -> is_underscore c = false.
Proof.
  intros H. apply digit_value_code in H.
  unfold is_underscore. apply Nat.eqb_neq. lia.
Qed.

Lemma digit_not_space c d : digit_value c = Some d -> is_space c = false.
Proof.
  intros H. apply digit_value_code in H. unfold is_space.
  destruct (Nat.leb_spec (code c) 13), (Nat.eqb_spec (code c) 32);
    rewrite ?andb_false_r; simpl; try lia; reflexivity.
Qed.

Lemma digit_not_sign c d :
  digit_value c = Some d ->
  (code c =? 43)%nat = false /\ (code c =? 45)%nat = false.
Proof.
  intros H. apply digit_value_code in H.
  split; apply Nat.eqb_neq; lia.
Qed.

Lemma space_not_digit c : is_space c = true -> digit_value c = None.
Proof.
  intros H. destruct (digit_value c) eqn:E; [|reflexivity].
  apply digit_not_space in E. congruence.
Qed.

Lemma space_not_underscore c : is_space c = true -> is_underscore c = false.
Proof.
  unfold is_space, is_underscore. intros H. apply Nat.eqb_neq. intros E.
  rewrite E in H. discriminate H.
Qed.

Lemma code_inj c c' : code c = code c' -> c = c'.
Proof.
  unfold code. intros H.
  rewrite <- (ascii_nat_embedding c), <- (ascii_nat_embedding c').
  now rewrite H.
Qed.

Lemma underscore_char c : is_underscore c = true -> c = "_"%char.
Proof.
  unfold is_underscore. intros H. apply Nat.eqb_eq in H.
  apply code_inj. exact H.
Qed.

(** The transformation maps exactly the white space of [int] to the white
    space of the parser and leaves every other character of a literal
    alone. *)
Lemma to_ascii_space c : is_space (to_ascii c) = py_space c.
Proof. destruct c as [[] [] [] [] [] [] [] []]; reflexivity. Qed.

Lemma to_ascii_keeps c :
  to_ascii c <> " "%char -> to_ascii c <> "?"%char -> to_ascii c = c.
Proof.
  destruct c as [[] [] [] [] [] [] [] []]; intros H1 H2;
    try reflexivity; exfalso; try (apply H1; reflexivity);
    apply H2; reflexivity.
Qed.

Lemma to_ascii_digit c d : digit_value (to_ascii c) = Some d -> to_ascii c = c.
Proof.
  intros H. apply to_ascii_keeps; intros E; rewrite E in H; discriminate H.
Qed.

Lemma to_ascii_of_digit c d : digit_value c = Some d -> to_ascii c = c.
Proof.
  intros H. apply digit_value_code in H. unfold to_ascii.
  destruct (Nat.ltb_spec (code c) 127); [reflexivity | lia].
Qed.

End Characters.

(** ** The parser of [int] against the grammar *)

Section Parser.

Lemma skip_space_app ws r :
  forallb is_space ws = true -> skip_space (ws ++ r) = skip_space r.
Proof.
  induction ws as [|c ws IH]; simpl; [reflexivity|].
  intros H. apply andb_prop in H as [Hc Hws]. rewrite Hc. auto.
Qed.

Lemma skip_space_all ws : forallb is_space ws = true -> skip_space ws = [].
Proof.
  intros H. rewrite <- (app_nil_r ws). rewrite skip_space_app by exact H.
  reflexivity.
Qed.

Lemma skip_space_split s :
  exists ws, s = ws ++ skip_space s /\ forallb is_space ws = true.
Proof.
  induction s as [|c s [ws [E H]]]; simpl.
  - exists []. split; reflexivity.
  - destruct (is_space c) eqn:Hc.
    + exists (c :: ws). simpl. rewrite Hc, H. split; [congruence | reflexivity].
    + exists []. split; reflexivity.
Qed.

Lemma skip_space_nil s : skip_space s = [] -> forallb is_space s = true.
Proof.
  intros H. destruct (skip_space_split s) as [ws [E Hws]].
  rewrite H, app_nil_r in E. now subst.
Qed.

Lemma all_space_stops ws : forallb is_space ws = true -> stops ws.
Proof.
  destruct ws as [|c ws]; simpl; [trivial|].
  intros H. apply andb_prop in H as [Hc _].
  split; [now apply space_not_underscore | now apply space_not_digit].
Qed.

(** The scanner accepts what the grammar describes ... *)
Lemma scan_digits_complete t ds :
  digit_tail t ds ->
  forall prev rest, is_underscore prev = false -> stops rest ->
  scan_digits prev (t ++ rest) = Some (ds, rest).
Proof.
  induction 1 as [|c d s ds Hd _ IH|c d s ds Hd _ IH];
    intros prev rest Hprev Hrest.
  - destruct rest as [|c r]; simpl; rewrite Hprev; [reflexivity|].
    destruct Hrest as [Hu Hn]. now rewrite Hu, Hn.
  - simpl. rewrite (digit_not_underscore _ _ Hd), Hd.
    rewrite (IH c rest (digit_not_underscore _ _ Hd) Hrest). reflexivity.
  - change (("_"%char :: c :: s) ++ rest)
      with ("_"%char :: c :: (s ++ rest)).
    cbn [scan_digits]. change (is_underscore "_") with true. cbv iota.
    rewrite Hprev. rewrite (digit_not_underscore _ _ Hd), Hd.
    rewrite (IH c rest (digit_not_underscore _ _ Hd) Hrest). reflexivity.
Qed.

(** ... and nothing else. *)
Lemma scan_digits_sound s :
  forall prev ds rest,
  scan_digits prev s = Some (ds, rest) ->
  exists t, s = t ++ rest /\ stops rest /\
    if is_underscore prev then digit_part t ds else digit_tail t ds.
Proof.
  induction s as [|c s IH]; intros prev ds rest; simpl.
  - destruct (is_underscore prev); [discriminate|].
    intros H. inversion H; subst. exists []. repeat split. constructor.
  - destruct (is_underscore c) eqn:Hc.
    + destruct (is_underscore prev) eqn:Hp; [discriminate|].
      intros H. apply IH in H as (t & -> & Hstop & Ht). rewrite Hc in Ht.
      exists (c :: t). repeat split; [exact Hstop|].
      apply underscore_char in Hc. subst c.
      inversion Ht; subst. now constructor.
    + destruct (digit_value c) as [d|] eqn:Hd.
      * destruct (scan_digits c s) as [[ds' rest']|] eqn:Hs; [|discriminate].
        intros H. inversion H; subst.
        apply IH in Hs as (t & -> & Hstop & Ht). rewrite Hc in Ht.
        exists (c :: t). repeat split; [exact Hstop|].
        destruct (is_underscore prev); now constructor.
      * destruct (is_underscore prev); [discriminate|].
        intros H. inversion H; subst. exists []. repeat split; auto.
        constructor.
Qed.

Lemma digit_tail_lt t ds : digit_tail t ds -> Forall (fun d => d < 10)%nat ds.
Proof.
  induction 1; constructor; eauto using digit_value_lt.
Qed.

Lemma digit_part_lt t ds : digit_part t ds -> Forall (fun d => d < 10)%nat ds.
Proof.
  destruct 1. constructor; eauto using digit_value_lt, digit_tail_lt.
Qed.

Lemma digit_part_nonempty t ds : digit_part t ds -> ds <> [].
Proof. destruct 1. discriminate. Qed.

(** [int] raises nothing but [ValueError]. *)
Lemma long_from_string_base_raises m sign s e :
  long_from_string_base m sign s = Raise e -> e = ValueError.
Proof.
  unfold long_from_string_base.
  repeat match goal with
  | |- context [match ?x with _ => _ end] => destruct x
  end; congruence.
Qed.

Lemma long_from_string_raises m s e :
  long_from_string m s = Raise e -> e = ValueError.
Proof.
  unfold long_from_string.
  destruct (skip_space s) as [|c r];
    [|destruct (code c =? 43)%nat; [|destruct (code c =? 45)%nat]];
    apply long_from_string_base_raises.
Qed.

(** What an accepted string looks like after the sign has been read. *)
Lemma long_from_string_base_sound m sign s n :
  long_from_string_base m sign s = Ok n ->
  exists body ds ws2,
    s = body ++ ws2 /\ digit_part body ds /\ forallb is_space ws2 = true /\
    exceeds m (length ds) (length ds) = false /\ n = sign * value_of ds.
Proof.
  unfold long_from_string_base.
  destruct s as [|c s']; [discriminate|].
  destruct (is_underscore c) eqn:Hc; [discriminate|].
  destruct (scan_digits "000"%char (c :: s')) as [[ds rest]|] eqn:Hs;
    [|discriminate].
  destruct ds as [|d ds]; [discriminate|].
  destruct (skip_space rest) eqn:Hr; [|discriminate].
  destruct (exceeds m _ _) eqn:Hx; [discriminate|].
  intros H. inversion H; subst.
  apply scan_digits_sound in Hs as (t & E & _ & Ht).
  change (is_underscore "000"%char) with false in Ht. cbv iota in Ht.
  exists t, (d :: ds), rest. repeat split; auto using skip_space_nil.
  inversion Ht; subst.
  - now constructor.
  - simpl in E. injection E as -> _. discriminate Hc.
Qed.

Lemma long_from_string_base_complete m sign body ds ws2 :
  digit_part body ds -> forallb is_space ws2 = true ->
  exceeds m (length ds) (length ds) = false ->
  long_from_string_base m sign (body ++ ws2) = Ok (sign * value_of ds).
Proof.
  intros Hb Hws Hx. destruct Hb as [c d t ds Hd Ht].
  unfold long_from_string_base.
  change ((c :: t) ++ ws2) with (c :: (t ++ ws2)).
  pose proof (digit_not_underscore _ _ Hd) as Hc.
  cbn [scan_digits]. change (is_underscore "000"%char) with false.
  rewrite Hc, Hd.
  rewrite (scan_digits_complete t ds Ht c ws2 Hc (all_space_stops _ Hws)).
  rewrite (skip_space_all _ Hws), Hx. reflexivity.
Qed.

Lemma long_from_string_sound m s n :
  long_from_string m s = Ok n -> int_literal is_space m s n.
Proof.
  unfold long_from_string.
  destruct (skip_space_split s) as [ws1 [E Hws1]].
  destruct (skip_space s) as [|c r] eqn:Hs1.
  - discriminate.
  - destruct (code c =? 43)%nat eqn:Hplus;
      [|destruct (code c =? 45)%nat eqn:Hminus].
    + intros H. apply long_from_string_base_sound in H
        as (body & ds & ws2 & -> & Hb & Hws2 & Hx & ->).
      apply Nat.eqb_eq in Hplus. apply (code_inj c "+"%char) in Hplus.
      subst c. rewrite E.
      apply (int_literal_intro is_space m ws1 ["+"%char] 1 body ds ws2);
        auto using sign_plus.
    + intros H. apply long_from_string_base_sound in H
        as (body & ds & ws2 & -> & Hb & Hws2 & Hx & ->).
      apply Nat.eqb_eq in Hminus. apply (code_inj c "-"%char) in Hminus.
      subst c. rewrite E.
      apply (int_literal_intro is_space m ws1 ["-"%char] (-1) body ds ws2);
        auto using sign_minus.
    + intros H. apply long_from_string_base_sound in H
        as (body & ds & ws2 & Eb & Hb & Hws2 & Hx & ->).
      rewrite E, Eb.
      apply (int_literal_intro is_space m ws1 [] 1 body ds ws2);
        auto using sign_none.
Qed.

Lemma long_from_string_complete m s n :
  int_literal is_space m s n -> long_from_string m s = Ok n.
Proof.
  intros [ws1 sg sigma body ds ws2 Hws1 Hsg Hb Hws2 Hx].
  unfold long_from_string. rewrite (skip_space_app _ _ Hws1).
  pose proof (long_from_string_base_complete m) as P.
  destruct Hsg; simpl app.
  - pose proof Hb as Hb'. destruct Hb' as [c d t ds Hd Ht].
    change ((c :: t) ++ ws2) with (c :: (t ++ ws2)).
    cbn [skip_space]. rewrite (digit_not_space _ _ Hd).
    destruct (digit_not_sign _ _ Hd) as [-> ->].
    apply (P 1 (c :: t) (d :: ds) ws2); auto.
  - cbn [skip_space]. change (is_space "+"%char) with false. cbv iota.
    change (code "+"%char =? 43)%nat with true. cbv iota.
    apply (P 1 body ds ws2); auto.
  - cbn [skip_space]. change (is_space "-"%char) with false. cbv iota.
    change (code "-"%char =? 43)%nat with false.
    change (code "-"%char =? 45)%nat with true. cbv iota.
    apply (P (-1) body ds ws2); auto.
Qed.

End Parser.

(** ** [int] on a [str] against the grammar *)

Section IntOfStr.

Lemma map_app_inv {A B} (f : A -> B) l k1 k2 :
  map f l = k1 ++ k2 ->
  exists l1 l2, l = l1 ++ l2 /\ map f l1 = k1 /\ map f l2 = k2.
Proof.
  revert l. induction k1 as [|b k1 IH]; intros l; simpl.
  - intros H. exists [], l. auto.
  - destruct l as [|a l]; [discriminate|]. simpl. intros H.
    injection H as Ha Hl. apply IH in Hl as (l1 & l2 & -> & <- & <-).
    exists (a :: l1), l2. simpl. rewrite Ha. auto.
Qed.

Lemma forallb_to_ascii l :
  forallb is_space (map to_ascii l) = forallb py_space l.
Proof.
  induction l as [|c l IH]; simpl; [reflexivity|].
  now rewrite to_ascii_space, IH.
Qed.

Lemma digit_tail_to_ascii t ds :
  digit_tail t ds -> map to_ascii t = t.
Proof.
  induction 1 as [|c d s ds Hd _ IH|c d s ds Hd _ IH]; simpl.
  - reflexivity.
  - now rewrite (to_ascii_of_digit _ _ Hd), IH.
  - rewrite (to_ascii_of_digit _ _ Hd), IH. reflexivity.
Qed.

Lemma digit_part_to_ascii t ds :
  digit_part t ds -> map to_ascii t = t.
Proof.
  destruct 1 as [c d s ds Hd Ht]. simpl.
  now rewrite (to_ascii_of_digit _ _ Hd), (digit_tail_to_ascii _ _ Ht).
Qed.

Lemma sign_to_ascii sg sigma : sign_of sg sigma -> map to_ascii sg = sg.
Proof. destruct 1; reflexivity. Qed.

Lemma digit_tail_of_to_ascii t' ds :
  digit_tail t' ds -> forall t, map to_ascii t = t' -> t = t'.
Proof.
  induction 1 as [|c d s ds Hd _ IH|c d s ds Hd _ IH]; intros t E.
  - destruct t; [reflexivity | discriminate].
  - destruct t as [|c0 t]; [discriminate|]. simpl in E.
    injection E as Ec Et. rewrite <- Ec in Hd.
    rewrite (to_ascii_digit _ _ Hd) in Ec. subst c0.
    now rewrite (IH t Et).
  - destruct t as [|u [|c0 t]]; try discriminate. simpl in E.
    injection E as Eu Ec Et. rewrite <- Ec in Hd.
    rewrite (to_ascii_digit _ _ Hd) in Ec. subst c0.
    rewrite (IH t Et). f_equal.
    rewrite <- Eu. symmetry. apply to_ascii_keeps; rewrite Eu; discriminate.
Qed.

Lemma digit_part_of_to_ascii t ds :
  digit_part (map to_ascii t) ds -> map to_ascii t = t.
Proof.
  intros H. destruct t as [|c0 t]; [inversion H|]. simpl in H |- *.
  inversion H as [c d s ds' Hd Ht]; subst.
  rewrite (to_ascii_digit _ _ Hd). f_equal.
  symmetry. now apply (digit_tail_of_to_ascii _ _ Ht).
Qed.

Lemma sign_of_to_ascii sg sigma l :
  sign_of sg sigma -> map to_ascii l = sg -> l = sg.
Proof.
  destruct 1; destruct l as [|c [|c' l]]; try discriminate;
    try reflexivity; simpl; intros E; injection E as E; f_equal;
    rewrite <- E; symmetry; apply to_ascii_keeps; rewrite E; discriminate.
Qed.

Lemma int_literal_to_ascii m l n :
  int_literal is_space m (map to_ascii l) n <-> int_literal py_space m l n.
Proof.
  split.
  - intros H. inversion H as [ws1 sg sigma body ds ws2 H1 Hs Hb H2 Hx E En].
    symmetry in E. apply map_app_inv in E as (l1 & r1 & -> & E1 & E).
    apply map_app_inv in E as (l2 & r2 & -> & E2 & E).
    apply map_app_inv in E as (l3 & l4 & -> & E3 & E4).
    subst ws1 ws2. rewrite forallb_to_ascii in H1, H2.
    apply (sign_of_to_ascii _ _ _ Hs) in E2. subst l2.
    rewrite <- E3 in Hb. pose proof (digit_part_of_to_ascii _ _ Hb) as E.
    rewrite E in Hb.
    now constructor.
  - intros [ws1 sg sigma body ds ws2 H1 Hs Hb H2 Hx].
    rewrite !map_app.
    rewrite (sign_to_ascii _ _ Hs), (digit_part_to_ascii _ _ Hb).
    constructor; auto; now rewrite forallb_to_ascii.
Qed.

(** [int(s)] returns [n] exactly when [s] is a literal that denotes [n]. *)
Lemma int_of_str_denotes m s n : int_of_str m s = Ok n <-> denotes m s n.
Proof.
  unfold int_of_str, denotes. rewrite <- int_literal_to_ascii.
  split; [apply long_from_string_sound | apply long_from_string_complete].
Qed.

Lemma int_of_str_raises m s e : int_of_str m s = Raise e -> e = ValueError.
Proof. apply long_from_string_raises. Qed.

(** [int] either returns an integer or raises [ValueError]. *)
Lemma int_of_str_cases m s :
  (exists n, int_of_str m s = Ok n) \/ int_of_str m s = Raise ValueError.
Proof.
  destruct (int_of_str m s) as [n|e] eqn:E; [left; eauto|right].
  now rewrite (int_of_str_raises _ _ _ E).
Qed.

End IntOfStr.

(** ** Decimal digits *)

Section Decimal.

Lemma value_of_snoc ds d :
  value_of (ds ++ [d]) = 10 * value_of ds + Z.of_nat d.
Proof. unfold value_of. now rewrite fold_left_app. Qed.

Lemma value_of_bound ds :
  Forall (fun d => d < 10)%nat ds ->
  0 <= value_of ds < 10 ^ Z.of_nat (length ds).
Proof.
  induction ds as [|d ds IH] using rev_ind; intros H.
  - simpl. unfold value_of. simpl. lia.
  - apply Forall_app in H as [Hds Hd]. inversion Hd; subst.
    specialize (IH Hds). rewrite value_of_snoc, length_app. simpl.
    replace (Z.of_nat (length ds + 1)) with (Z.succ (Z.of_nat (length ds)))
      by lia.
    rewrite Z.pow_succ_r by lia. lia.
Qed.

Lemma digits_le_lt fuel : forall n,
  0 <= n -> Forall (fun d => d < 10)%nat (digits_le fuel n).
Proof.
  induction fuel as [|f IH]; intros n Hn; simpl; [constructor|].
  destruct (Z.ltb_spec n 10).
  - constructor; [lia | constructor].
  - constructor.
    + pose proof (Z.mod_pos_bound n 10). lia.
    + apply IH. apply Z.div_pos; lia.
Qed.

Lemma digits_le_length fuel : forall n k,
  0 <= n < 10 ^ Z.of_nat k -> (1 <= k)%nat ->
  (length (digits_le fuel n) <= k)%nat.
Proof.
  induction fuel as [|f IH]; intros n k Hn Hk; simpl; [lia|].
  destruct (Z.ltb_spec n 10); simpl; [lia|].
  destruct k as [|[|k]]; [lia | simpl in Hn; lia |].
  apply le_n_S. apply IH; [|lia]. split.
  - apply Z.div_pos; lia.
  - apply Z.div_lt_upper_bound; [lia|].
    replace (Z.of_nat (S (S k))) with (Z.succ (Z.of_nat (S k))) in Hn by lia.
    rewrite Z.pow_succ_r in Hn by lia. lia.
Qed.

Lemma digits_le_value fuel : forall n,
  0 <= n < 2 ^ Z.of_nat fuel -> value_of (rev (digits_le fuel n)) = n.
Proof.
  induction fuel as [|f IH]; intros n Hn.
  - simpl in *. unfold value_of. simpl. lia.
  - simpl digits_le. destruct (Z.ltb_spec n 10).
    + unfold value_of. simpl. lia.
    + simpl rev. rewrite value_of_snoc, IH.
      * rewrite Z2Nat.id by (pose proof (Z.mod_pos_bound n 10); lia).
        pose proof (Z.div_mod n 10). lia.
      * replace (Z.of_nat (S f)) with (Z.succ (Z.of_nat f)) in Hn by lia.
        rewrite Z.pow_succ_r in Hn by lia. split.
        -- apply Z.div_pos; lia.
        -- apply Z.div_lt_upper_bound; lia.
Qed.

Lemma decimal_value n : 0 <= n -> value_of (decimal n) = n.
Proof.
  intros Hn. unfold decimal. apply digits_le_value. split; [lia|].
  destruct (Z.eq_dec n 0) as [->|Hne]; [reflexivity|].
  rewrite Nat2Z.inj_succ, Z2Nat.id by apply Z.log2_nonneg.
  apply Z.log2_spec. lia.
Qed.

Lemma decimal_lt n : 0 <= n -> Forall (fun d => d < 10)%nat (decimal n).
Proof.
  intros Hn. unfold decimal. apply Forall_rev. now apply digits_le_lt.
Qed.

Lemma decimal_length n k :
  0 <= n < 10 ^ Z.of_nat k -> (1 <= k)%nat -> (length (decimal n) <= k)%nat.
Proof.
  intros Hn Hk. unfold decimal. rewrite length_rev.
  now apply digits_le_length.
Qed.

Lemma decimal_nonempty n : decimal n <> [].
Proof.
  unfold decimal. intros H. apply (f_equal (@length nat)) in H.
  rewrite length_rev in H. simpl in H. destruct (n <? 10); discriminate.
Qed.

Lemma digit_value_char d : (d < 10)%nat -> digit_value (digit_char d) = Some d.
Proof.
  intros H. do 10 (destruct d as [|d]; [reflexivity|]). lia.
Qed.

Lemma digit_tail_chars ds :
  Forall (fun d => d < 10)%nat ds -> digit_tail (map digit_char ds) ds.
Proof.
  induction 1; simpl; constructor; auto using digit_value_char.
Qed.

Lemma digit_part_chars ds :
  ds <> [] -> Forall (fun d => d < 10)%nat ds ->
  digit_part (map digit_char ds) ds.
Proof.
  intros Hne H. destruct H; [contradiction|]. simpl.
  constructor; auto using digit_value_char, digit_tail_chars.
Qed.

(** The guard of [str] does not fire on a number that [int] let through. *)
Lemma exceeds_shorter m sign len len' :
  (sign <= 1)%nat -> (len' <= len)%nat ->
  exceeds m len len = false -> exceeds m (sign + len') len' = false.
Proof.
  unfold exceeds. intros Hs Hl.
  destruct m as [|k]; unfold max_str_digits.
  - intros _. change (0 <? 0)%nat with false.
    now rewrite andb_false_r.
  - destruct (Nat.ltb_spec str_digits_check_threshold len),
      (Nat.ltb_spec 0 (str_digits_check_threshold + k)),
      (Nat.ltb_spec (str_digits_check_threshold + k) len),
      (Nat.ltb_spec str_digits_check_threshold (sign + len')),
      (Nat.ltb_spec (str_digits_check_threshold + k) len');
      cbn [andb]; intros E; try reflexivity; try discriminate E; lia.
Qed.

(** ... and the guard of [int] does not fire on what [str] printed. *)
Lemma exceeds_unsigned m sign len :
  exceeds m (sign + len) len = false -> exceeds m len len = false.
Proof.
  unfold exceeds.
  destruct (Nat.ltb_spec str_digits_check_threshold len),
    (Nat.ltb_spec 0 (max_str_digits m)),
    (Nat.ltb_spec (max_str_digits m) len),
    (Nat.ltb_spec str_digits_check_threshold (sign + len));
    cbn [andb]; intros E; try reflexivity; try discriminate E; lia.
Qed.

End Decimal.

(** ** [str] and [int] together *)

Section StrAndInt.

(** What [int] has accepted, [str] prints. *)
Lemma str_after_int m s n :
  int_of_str m s = Ok n -> exists text, str_of_int m n = Ok text.
Proof.
  intros H. apply int_of_str_denotes in H. unfold denotes in H.
  inversion H as [ws1 sg sigma body ds ws2 _ Hs Hb _ Hx E En].
  pose proof (value_of_bound ds (digit_part_lt _ _ Hb)) as Hv.
  assert (Hl : (1 <= length ds)%nat).
  { destruct Hb. simpl. lia. }
  assert (Ha : Z.abs (sigma * value_of ds) = value_of ds).
  { destruct Hs; lia. }
  unfold str_of_int. rewrite Ha.
  rewrite exceeds_shorter with (len := length ds);
    [eauto | destruct (_ <? 0); lia | now apply decimal_length | exact Hx].
Qed.

(** What [str] prints, [int] reads back as the same number: the text is
    the decimal representation of the number. *)
Lemma int_of_str_of_int m n text :
  str_of_int m n = Ok text -> int_of_str m text = Ok n.
Proof.
  unfold str_of_int. set (ds := decimal (Z.abs n)).
  destruct (exceeds m _ _) eqn:Hx; [discriminate|].
  intros H. injection H as <-. apply int_of_str_denotes. unfold denotes.
  rewrite list_ascii_of_string_of_list_ascii.
  apply exceeds_unsigned in Hx.
  assert (Hb : digit_part (map digit_char ds) ds).
  { apply digit_part_chars; [apply decimal_nonempty|].
    apply decimal_lt. lia. }
  assert (Hv : value_of ds = Z.abs n) by (apply decimal_value; lia).
  destruct (Z.ltb_spec n 0).
  - pose proof (int_literal_intro py_space m [] ["-"%char] (-1)
                  (map digit_char ds) ds [] eq_refl sign_minus Hb eq_refl Hx)
      as L.
    replace (-1 * value_of ds) with n in L by lia.
    simpl in L. rewrite app_nil_r in L. exact L.
  - pose proof (int_literal_intro py_space m [] [] 1
                  (map digit_char ds) ds [] eq_refl sign_none Hb eq_refl Hx)
      as L.
    replace (1 * value_of ds) with n in L by lia.
    simpl in L. rewrite app_nil_r in L. exact L.
Qed.

(** The default port prints under every setting of the interpreter. *)
Lemma str_of_default m : str_of_int m 3000 = Ok "3000"%string.
Proof.
  unfold str_of_int. change (decimal (Z.abs 3000)) with [3; 0; 0; 0]%nat.
  unfold exceeds.
  change (str_digits_check_threshold <? _)%nat with false. reflexivity.
Qed.

End StrAndInt.


(** ** The start-up *)

Section Startup.

Lemma resolve_port_unset env m :
  env !! "PORT"%string = None -> resolve_port env m = Ok 3000.
Proof. unfold resolve_port, port_argument. now intros ->. Qed.

Lemma resolve_port_set env m s :
  env !! "PORT"%string = Some s -> resolve_port env m = int_of_str m s.
Proof. unfold resolve_port, port_argument. now intros ->. Qed.

(** The port expression raises nothing but [ValueError]. *)
Lemma resolve_port_raises env m e :
  resolve_port env m = Raise e -> e = ValueError.
Proof.
  unfold resolve_port. destruct (port_argument env); [discriminate|].
  apply int_of_str_raises.
Qed.

(** A port that was resolved can be printed. *)
Lemma resolve_port_prints env m n :
  resolve_port env m = Ok n -> exists digits, str_of_int m n = Ok digits.
Proof.
  unfold resolve_port, port_argument.
  destruct (env !! "PORT"%string) as [s|].
  - apply str_after_int.
  - unfold int_of_int. intros H. injection H as <-.
    eauto using str_of_default.
Qed.

(** When line 11 raises, the run is over: nothing but the call of [int]
    has happened. *)
Lemma main_rejects os env m e :
  resolve_port env m = Raise e ->
  main os (boot env m)
  = (Raise e, record (EvInt (port_argument env)) (boot env m)).
Proof.
  unfold resolve_port, main, mbind, ST_bind, environ_get, int, port_argument.
  cbn [boot environ int_limit]. destruct (env !! "PORT"%string) as [s|].
  - now intros ->.
  - discriminate.
Qed.

Lemma main_prints os env m n digits :
  resolve_port env m = Ok n -> str_of_int m n = Ok digits ->
  main os (boot env m) = HTTPServer os EmptyString n (printed env m n digits).
Proof.
  unfold resolve_port, main, mbind, ST_bind, environ_get, int, port_argument,
    set_port, startup_line, print, printed, record, port_argument.
  cbn [boot environ int_limit port stdout stderr listening trace].
  destruct (env !! "PORT"%string) as [s|]; intros -> Hd;
    cbn [int_limit]; rewrite Hd; reflexivity.
Qed.

(** What the constructor of the server does to the process, whatever the
    answer of the operating system. *)
Lemma HTTPServer_effect os host n p :
  let '(r, p') := HTTPServer os host n p in
  trace p' = trace p ++ [EvBind host n] /\ stdout p' = stdout p /\
  port p' = port p /\
  r = (if (n <? 0) || (65535 <? n) then Raise OverflowError
       else match bind_errno os host n with
            | Some errno => Raise (OSError errno)
            | None => Ok tt
            end) /\
  listening p' = match r with
                 | Ok _ => Some (host, bound_port os n)
                 | Raise _ => listening p
                 end /\
  stderr p' = stderr p.
Proof.
  unfold HTTPServer. destruct ((n <? 0) || (65535 <? n));
    [|destruct (bind_errno os host n)]; cbn; auto 7.
Qed.

(** A port other than 0 is bound as asked. *)
Lemma bound_port_same os n : n <> 0 -> bound_port os n = n.
Proof.
  intros H. unfold bound_port. destruct (Z.eqb_spec n 0); congruence.
Qed.

Lemma newline_free_append s t :
  newline_free (s +:+ t) = newline_free s && newline_free t.
Proof.
  induction s as [|c s IH]; simpl; [reflexivity|].
  now rewrite IH, andb_assoc.
Qed.

Lemma digit_char_not_newline d :
  (d < 10)%nat -> Ascii.eqb (digit_char d) "010"%char = false.
Proof.
  intros H. do 10 (destruct d as [|d]; [reflexivity|]). lia.
Qed.

Lemma newline_free_digits ds :
  Forall (fun d => d < 10)%nat ds ->
  newline_free (string_of_list_ascii (map digit_char ds)) = true.
Proof.
  induction 1 as [|d ds Hd _ IH]; [reflexivity|].
  cbn [map string_of_list_ascii newline_free].
  now rewrite IH, (digit_char_not_newline d Hd).
Qed.

Lemma string_of_list_ascii_app l1 l2 :
  string_of_list_ascii (l1 ++ l2)
  = string_of_list_ascii l1 +:+ string_of_list_ascii l2.
Proof. induction l1 as [|c l1 IH]; simpl; [reflexivity | now rewrite IH]. Qed.

Lemma str_of_int_newline_free m n digits :
  str_of_int m n = Ok digits -> newline_free digits = true.
Proof.
  unfold str_of_int. destruct (exceeds m _ _); [discriminate|].
  intros H. injection H as <-.
  rewrite string_of_list_ascii_app, newline_free_append.
  rewrite newline_free_digits by (apply decimal_lt; lia).
  now destruct (n <? 0).
Qed.

(** A text without line feed followed by one line feed is one line. *)
Lemma split_lines_one line :
  newline_free line = true ->
  split_lines (line +:+ String "010"%char EmptyString) = [line].
Proof.
  induction line as [|c line IH]; simpl; [reflexivity|].
  intros H. apply andb_prop in H as [Hc Hl].
  destruct (Ascii.eqb c "010"%char); [discriminate|].
  now rewrite (IH Hl).
Qed.

Lemma startup_line_one m n digits :
  str_of_int m n = Ok digits ->
  split_lines (("Server running on port " +:+ digits)
               +:+ String "010"%char EmptyString)
  = ["Server running on port " +:+ digits].
Proof.
  intros H. apply split_lines_one. rewrite newline_free_append.
  now rewrite (str_of_int_newline_free _ _ _ H).
Qed.

End Startup.

(** ** The handler *)

Section Handling.

Variable lib : Library.
Variable inherited : Clock -> World -> World.

(** Under [protocol_version] HTTP/1.0 [parse_request] never clears
    [self.close_connection], whatever the version and the [Connection]
    field of the request. *)
Lemma close_connection_of_true r : close_connection_of r = true.
Proof.
  unfold close_connection_of.
  change protocol_at_least_1_1 with false.
  destruct (version r) as [[text number]|]; rewrite ?andb_false_r;
    now destruct (String.eqb (lower _) "close").
Qed.

(** The calls of the base class on a handler that holds a request with a
    version ... *)
Lemma send_response_only_versioned code p client r closing buffer out :
  String.eqb (request_version r) "HTTP/0.9" = false ->
  send_response_only lib code
    (mkWorld p (mkHandler client (Some r) closing buffer out))
  = (Ok tt,
     mkWorld p
       (mkHandler client (Some r) closing
          (Some (default [] buffer
                 ++ [StatusLine protocol_version code
                       (default EmptyString (responses lib code))]))
          out)).
Proof.
  intros E. unfold send_response_only, get_request, buffer_line,
    get_headers_buffer, set_headers_buffer, mbind, ST_bind.
  cbn [self process request]. now rewrite E.
Qed.

Lemma send_header_versioned keyword value p client r closing buffer out :
  String.eqb (request_version r) "HTTP/0.9" = false ->
  String.eqb (lower keyword) "connection" = false ->
  send_header keyword value
    (mkWorld p (mkHandler client (Some r) closing buffer out))
  = (Ok tt,
     mkWorld p
       (mkHandler client (Some r) closing
          (Some (default [] buffer ++ [HeaderLine keyword value])) out)).
Proof.
  intros E Ek. unfold send_header, get_request, buffer_line,
    get_headers_buffer, set_headers_buffer, mbind, ST_bind.
  cbn [self process request]. now rewrite E, Ek.
Qed.

Lemma end_headers_versioned p client r closing buffered out :
  String.eqb (request_version r) "HTTP/0.9" = false ->
  end_headers (mkWorld p (mkHandler client (Some r) closing (Some buffered) out))
  = (Ok tt,
     mkWorld p
       (mkHandler client (Some r) closing (Some [])
          (out ++ map Head (buffered ++ [BlankLine])))).
Proof.
  intros E. unfold end_headers, flush_headers, get_request,
    get_headers_buffer, set_headers_buffer, write, mbind, ST_bind.
  cbn [self process request]. now rewrite E.
Qed.

(** ... and on one that holds a request without: nothing is buffered and
    nothing of the head is written. *)
Lemma send_response_only_simple code (w : World) r :
  request (self w) = Some r ->
  String.eqb (request_version r) "HTTP/0.9" = true ->
  send_response_only lib code w = (Ok tt, w).
Proof.
  intros Hr E. unfold send_response_only, get_request, mbind, ST_bind.
  now rewrite Hr, E.
Qed.

Lemma send_header_simple keyword value (w : World) r :
  request (self w) = Some r ->
  String.eqb (request_version r) "HTTP/0.9" = true ->
  String.eqb (lower keyword) "connection" = false ->
  send_header keyword value w = (Ok tt, w).
Proof.
  intros Hr E Ek. unfold send_header, get_request, mbind, ST_bind.
  now rewrite Hr, E, Ek.
Qed.

Lemma end_headers_simple (w : World) r :
  request (self w) = Some r ->
  String.eqb (request_version r) "HTTP/0.9" = true ->
  end_headers w = (Ok tt, w).
Proof.
  intros Hr E. unfold end_headers, get_request, mbind, ST_bind.
  now rewrite Hr, E.
Qed.

Lemma log_request_run now code p client r closing buffer out :
  log_request now code
    (mkWorld p (mkHandler client (Some r) closing buffer out))
  = (Ok tt,
     mkWorld (log (LogRequest (fst client) (log_date_time_string now)
                     (requestline r) code) p)
       (mkHandler client (Some r) closing buffer out)).
Proof. reflexivity. Qed.

(** [do_GET] on a handler that holds a request: it does not raise, logs
    one line, writes the buffered head (whatever was buffered, then the
    five lines of the greeting) and the body, or the body alone for a
    request without version, and leaves the rest of the handler alone. *)
Lemma do_GET_run now w r :
  request (self w) = Some r ->
  do_GET lib now w
  = (Ok tt,
     {| process := log (LogRequest (fst (client_address (self w)))
                          (log_date_time_string now) (requestline r) 200)
                       (process w);
        self :=
          {| client_address := client_address (self w);
             request := Some r;
             close_connection := close_connection (self w);
             headers_buffer :=
               if String.eqb (request_version r) "HTTP/0.9"
               then headers_buffer (self w) else Some [];
             wfile :=
               wfile (self w) ++
               if String.eqb (request_version r) "HTTP/0.9"
               then [Body "<h1>Hello from Python!</h1>"]
               else map Head (default [] (headers_buffer (self w))
                              ++ greeting_head lib now)
                    ++ [Body "<h1>Hello from Python!</h1>"] |} |}).
Proof.
  destruct w as [p [client rq closing buffer out]]. cbn. intros ->.
  unfold do_GET, send_response.
  unfold mbind at 1 2 3 4 5 6. unfold ST_bind at 1 2 3 4 5 6.
  rewrite log_request_run.
  destruct (String.eqb (request_version r) "HTTP/0.9") eqn:E.
  - rewrite send_response_only_simple with (r := r);
      [|reflexivity|exact E].
    rewrite send_header_simple with (r := r);
      [|reflexivity|exact E|reflexivity].
    rewrite send_header_simple with (r := r);
      [|reflexivity|exact E|reflexivity].
    rewrite send_header_simple with (r := r);
      [|reflexivity|exact E|reflexivity].
    rewrite end_headers_simple with (r := r); [|reflexivity|exact E].
    reflexivity.
  - rewrite (send_response_only_versioned 200 _ _ _ _ _ _ E).
    rewrite (send_header_versioned "Server" _ _ _ _ _ _ _ E eq_refl).
    cbn [default].
    rewrite (send_header_versioned "Date" _ _ _ _ _ _ _ E eq_refl).
    cbn [default].
    rewrite (send_header_versioned "Content-type" _ _ _ _ _ _ _ E eq_refl).
    cbn [default].
    rewrite (end_headers_versioned _ _ _ _ _ _ E).
    unfold write, greeting_head. cbn [self process wfile request
      client_address close_connection headers_buffer].
    unfold id. do 3 f_equal. rewrite <- !app_assoc. reflexivity.
Qed.

(** A GET request on the fresh handler of a connection. *)
Lemma handle_GET now r client p :
  command r = "GET"%string ->
  handle_one_request lib inherited now r
    {| process := p; self := new_handler client |}
  = (Ok tt,
     {| process := log (LogRequest (fst client) (log_date_time_string now)
                          (requestline r) 200) p;
        self :=
          {| client_address := client;
             request := Some r;
             close_connection := true;
             headers_buffer :=
               if String.eqb (request_version r) "HTTP/0.9"
               then None else Some [];
             wfile := reply lib now r |} |}).
Proof.
  intros Hc. unfold handle_one_request, parse_request, set_request,
    set_close_connection, mbind, ST_bind. rewrite Hc.
  cbn [String.eqb]. change (String.eqb "GET" "GET") with true. cbv iota.
  cbn [self process request client_address headers_buffer wfile
       close_connection new_handler].
  rewrite (do_GET_run now _ r) by reflexivity.
  cbn [self process request client_address headers_buffer wfile
       close_connection new_handler].
  rewrite close_connection_of_true. unfold reply, greeting.
  destruct (String.eqb (request_version r) "HTTP/0.9"); reflexivity.
Qed.

(** A connection is done after its first request when that is a GET:
    what else arrives on it is never read. *)
Lemma finish_request_GET c now r rest p :
  arriving c = (now, r) :: rest ->
  command r = "GET"%string ->
  finish_request lib inherited c p
  = (Ok (reply lib now r),
     log (LogRequest (fst (client c)) (log_date_time_string now)
            (requestline r) 200) p).
Proof.
  intros Ha Hc. unfold finish_request, handle. rewrite Ha.
  unfold mbind at 1. unfold ST_bind at 1.
  unfold set_close_connection at 1.
  cbn [handle_requests]. unfold mbind at 1. unfold ST_bind at 1.
  change {| process := process {| process := p; self := new_handler (client c) |};
            self := _ |}
    with {| process := p; self := new_handler (client c) |}.
  rewrite (handle_GET now r (client c) p Hc).
  reflexivity.
Qed.

(** A connection on which nothing arrives. *)
Lemma finish_request_silent c p :
  arriving c = [] -> finish_request lib inherited c p = (Ok [], p).
Proof.
  intros Ha. unfold finish_request, handle. rewrite Ha. reflexivity.
Qed.

Lemma logs_nil p : logs [] p = p.
Proof. destruct p. unfold logs. cbn. now rewrite app_nil_r. Qed.

Lemma logs_log e es p : logs es (log e p) = logs (e :: es) p.
Proof. unfold logs, log. cbn. now rewrite <- app_assoc. Qed.

Lemma finish_request_asks_GET c p :
  asks_GET c ->
  finish_request lib inherited c p = (Ok (answer lib c), logs (logged c) p).
Proof.
  unfold asks_GET, answer, logged, first_request.
  destruct (arriving c) as [|[now r] rest] eqn:Ha; cbn [head].
  - intros _. rewrite logs_nil. now apply finish_request_silent.
  - intros Hc. rewrite (finish_request_GET c now r rest p Ha Hc).
    reflexivity.
Qed.

Lemma serve_GET incoming : forall p,
  Forall asks_GET incoming ->
  serve_forever lib inherited incoming p
  = (Ok (map (answer lib) incoming), logs (concat (map logged incoming)) p).
Proof.
  induction incoming as [|c rest IH]; intros p H.
  - cbn. now rewrite logs_nil.
  - inversion H as [|c' rest' Hc Hrest]; subst.
    cbn [serve_forever map concat]. unfold mbind, ST_bind.
    rewrite (finish_request_asks_GET c p Hc), (IH _ Hrest).
    unfold mret, ST_ret. f_equal.
    unfold logs. cbn. now rewrite <- app_assoc.
Qed.

End Handling.

(** C3, as the library has it: every GET request that carries a protocol
    version other than HTTP/0.9, whatever its path, is answered with
    status 200, a [Content-type] field equal to [text/html] and the body
    [<h1>Hello from Python!</h1>].  (A request without version gets the
    body alone.) *)
Theorem get_is_answered_with_greeting
  (lib : Library) (inherited : Clock -> World -> World)
  (client : string * Z) (now : Clock) (r : Request)
  (rest : list (Clock * Request)) (p : Process) :
  command r = "GET"%string ->
  request_version r <> "HTTP/0.9"%string ->
  exists w resp,
    fst (finish_request lib inherited
           (mkConnection client ((now, r) :: rest)) p) = Ok w /\
    read_response w = Some resp /\
    status resp = Some 200 /\
    field "Content-type" (fields resp) = Some "text/html"%string /\
    body resp = "<h1>Hello from Python!</h1>"%string.
Proof.
  intros Hc Hv.
  rewrite (finish_request_GET lib inherited
             (mkConnection client ((now, r) :: rest)) now r rest p eq_refl Hc).
  unfold reply. apply String.eqb_neq in Hv. rewrite Hv.
  exists (greeting lib now). eexists. repeat split.
Qed.

Lemma get_is_answered_with_greeting_witness :
  let lib := mkLibrary "Python/3.11.2" (fun _ => Some "OK"%string) in
  let now := mkClock "Wed, 04 Nov 2026 16:46:22 GMT" "04/Nov/2026 16:46:22" in
  let r := mkRequest "GET" "/anything/else" "GET /anything/else HTTP/1.1"
             (Some ("HTTP/1.1"%string, (1, 1)))
             [("Host"%string, "localhost:3000"%string)] in
  let c := mkConnection ("127.0.0.1"%string, 50000) [(now, r)] in
  (command r = "GET"%string /\ request_version r <> "HTTP/0.9"%string) /\
  exists w resp,
    fst (finish_request lib (fun _ w => w) c
           (boot ∅ default_max_str_digits)) = Ok w /\
    read_response w = Some resp /\
    status resp = Some 200 /\
    field "Content-type" (fields resp) = Some "text/html"%string /\
    body resp = "<h1>Hello from Python!</h1>"%string.
Proof.
  intros lib now r c.
  assert (H1 : command r = "GET"%string) by reflexivity.
  assert (H2 : request_version r <> "HTTP/0.9"%string) by discriminate.
  split; [split; assumption|].
  exact (get_is_answered_with_greeting lib (fun _ w => w)
           ("127.0.0.1"%string, 50000) now r []
           (boot ∅ default_max_str_digits) H1 H2).
Defined.

(** C3 as stated fails: the request line [GET /], which carries no
    version, is a GET request, and what goes out for it is the body
    alone: no status and no [Content-type] field. *)
Lemma versionless_get_has_no_status :
  let lib := mkLibrary "Python/3.11.2" (fun _ => Some "OK"%string) in
  let now := mkClock "Wed, 04 Nov 2026 16:46:22 GMT" "04/Nov/2026 16:46:22" in
  let r := mkRequest "GET" "/" "GET /" None [] in
  let c := mkConnection ("127.0.0.1"%string, 50000) [(now, r)] in
  let out := fst (finish_request lib (fun _ w => w) c
                    (boot ∅ default_max_str_digits)) in
  command r = "GET"%string /\
  out = Ok [Body "<h1>Hello from Python!</h1>"] /\
  ~ (exists w resp,
       out = Ok w /\ read_response w = Some resp /\
       status resp = Some 200 /\
       field "Content-type" (fields resp) = Some "text/html"%string /\
       body resp = "<h1>Hello from Python!</h1>"%string).
Proof.
  intros lib now r c out. repeat split.
  intros (w & resp & Hw & Hr & Hs & _).
  injection Hw as <-. injection Hr as <-. discriminate Hs.
Qed.

(** C2, as the code has it: for every GET request the body the handler
    writes is exactly [<h1>Hello from Python!</h1>], which is 27 bytes
    long and ends in [>], so without a trailing line feed. *)
Theorem get_body_is_27_bytes
  (lib : Library) (inherited : Clock -> World -> World)
  (client : string * Z) (now : Clock) (r : Request)
  (rest : list (Clock * Request)) (p : Process) :
  command r = "GET"%string ->
  exists w resp,
    fst (finish_request lib inherited
           (mkConnection client ((now, r) :: rest)) p) = Ok w /\
    last w = Some (Body "<h1>Hello from Python!</h1>") /\
    read_response w = Some resp /\
    body resp = "<h1>Hello from Python!</h1>"%string /\
    String.length (body resp) = 27%nat /\
    last_byte (body resp) = Some ">"%char.
Proof.
  intros Hc.
  rewrite (finish_request_GET lib inherited
             (mkConnection client ((now, r) :: rest)) now r rest p eq_refl Hc).
  exists (reply lib now r). unfold reply.
  destruct (String.eqb (request_version r) "HTTP/0.9");
    eexists; repeat split.
Qed.

Lemma get_body_is_27_bytes_witness :
  let lib := mkLibrary "Python/3.11.2" (fun _ => Some "OK"%string) in
  let now := mkClock "Wed, 04 Nov 2026 16:46:22 GMT" "04/Nov/2026 16:46:22" in
  let r := mkRequest "GET" "/" "GET / HTTP/1.0"
             (Some ("HTTP/1.0"%string, (1, 0))) [] in
  let c := mkConnection ("127.0.0.1"%string, 50000) [(now, r)] in
  command r = "GET"%string /\
  exists w resp,
    fst (finish_request lib (fun _ w => w) c
           (boot ∅ default_max_str_digits)) = Ok w /\
    last w = Some (Body "<h1>Hello from Python!</h1>") /\
    read_response w = Some resp /\
    body resp = "<h1>Hello from Python!</h1>"%string /\
    String.length (body resp) = 27%nat /\
    last_byte (body resp) = Some ">"%char.
Proof.
  intros lib now r c. split; [reflexivity|].
  apply (get_body_is_27_bytes lib (fun _ w => w)
           ("127.0.0.1"%string, 50000) now r []
           (boot ∅ default_max_str_digits)).
  reflexivity.
Defined.

(** C2 as stated fails: the body written for [GET /] is not 28 bytes
    long. *)
Lemma get_body_is_not_28_bytes :
  let lib := mkLibrary "Python/3.11.2" (fun _ => Some "OK"%string) in
  let now := mkClock "Wed, 04 Nov 2026 16:46:22 GMT" "04/Nov/2026 16:46:22" in
  let r := mkRequest "GET" "/" "GET / HTTP/1.0"
             (Some ("HTTP/1.0"%string, (1, 0))) [] in
  let w := wfile (self (snd (handle_one_request lib (fun _ w => w) now r
                               (mkWorld (boot ∅ default_max_str_digits)
                                  (new_handler ("127.0.0.1"%string, 50000))))))
  in
  ~ (exists resp,
       read_response w = Some resp /\
       body resp = "<h1>Hello from Python!</h1>"%string /\
       String.length (body resp) = 28%nat /\
       last_byte (body resp) <> Some "010"%char).
Proof.
  intros lib now r w.
  assert (E : w = greeting lib now).
  { unfold w. now rewrite (handle_GET lib (fun _ w => w) now r _ _ eq_refl). }
  rewrite E. intros (resp & Hr & _ & Hl & _).
  cbn in Hr. injection Hr as <-. cbn in Hl. discriminate Hl.
Qed.

(** C6: two GET requests that differ only in their path (same protocol
    version, same header fields, answered at the same reading of the
    clock) get the same response: the status, the header fields and the
    body do not depend on the path.  Only the line of the access log,
    which quotes the request line, tells them apart. *)
Theorem response_does_not_depend_on_path
  (lib : Library) (inherited : Clock -> World -> World)
  (client : string * Z) (now : Clock) (rest : list (Clock * Request))
  (r1 r2 : Request) (p : Process) :
  command r1 = "GET"%string -> command r2 = "GET"%string ->
  headers r1 = headers r2 -> version r1 = version r2 ->
  fst (finish_request lib inherited
         (mkConnection client ((now, r1) :: rest)) p)
  = fst (finish_request lib inherited
           (mkConnection client ((now, r2) :: rest)) p)
  /\ read_response
       (wfile (self (snd (handle_one_request lib inherited now r1
                            (mkWorld p (new_handler client))))))
     = read_response
         (wfile (self (snd (handle_one_request lib inherited now r2
                              (mkWorld p (new_handler client))))))
  /\ forall target line,
       fst (finish_request lib inherited
              (mkConnection client ((now, with_path target line r1) :: rest))
              p)
       = fst (finish_request lib inherited
                (mkConnection client ((now, r1) :: rest)) p).
Proof.
  intros H1 H2 _ Hv.
  rewrite (finish_request_GET lib inherited
             (mkConnection client ((now, r1) :: rest)) now r1 rest p
             eq_refl H1).
  rewrite (finish_request_GET lib inherited
             (mkConnection client ((now, r2) :: rest)) now r2 rest p
             eq_refl H2).
  rewrite (handle_GET lib inherited now r1 client p H1).
  rewrite (handle_GET lib inherited now r2 client p H2).
  assert (E : reply lib now r1 = reply lib now r2)
    by (unfold reply, request_version; now rewrite Hv).
  cbn [fst snd self wfile]. split; [now rewrite E|].
  split; [now rewrite E|].
  intros target line.
  rewrite (finish_request_GET lib inherited
             (mkConnection client ((now, with_path target line r1) :: rest))
             now (with_path target line r1) rest p eq_refl H1).
  reflexivity.
Qed.

Lemma response_does_not_depend_on_path_witness :
  let lib := mkLibrary "Python/3.11.2" (fun _ => Some "OK"%string) in
  let now := mkClock "Wed, 04 Nov 2026 16:46:22 GMT" "04/Nov/2026 16:46:22" in
  let r1 := mkRequest "GET" "/" "GET / HTTP/1.1"
              (Some ("HTTP/1.1"%string, (1, 1)))
              [("Host"%string, "localhost"%string)] in
  let r2 := mkRequest "GET" "/anything/else" "GET /anything/else HTTP/1.1"
              (Some ("HTTP/1.1"%string, (1, 1)))
              [("Host"%string, "localhost"%string)] in
  let client := ("127.0.0.1"%string, 50000) in
  let p := boot ∅ default_max_str_digits in
  let inherited := fun (_ : Clock) (w : World) => w in
  (command r1 = "GET"%string /\ command r2 = "GET"%string /\
   headers r1 = headers r2 /\ version r1 = version r2) /\
  fst (finish_request lib inherited (mkConnection client [(now, r1)]) p)
  = fst (finish_request lib inherited (mkConnection client [(now, r2)]) p)
  /\ read_response
       (wfile (self (snd (handle_one_request lib inherited now r1
                            (mkWorld p (new_handler client))))))
     = read_response
         (wfile (self (snd (handle_one_request lib inherited now r2
                              (mkWorld p (new_handler client))))))
  /\ forall target line,
       fst (finish_request lib inherited
              (mkConnection client [(now, with_path target line r1)]) p)
       = fst (finish_request lib inherited
                (mkConnection client [(now, r1)]) p).
Proof.
  intros lib now r1 r2 client p inherited. split; [repeat split|].
  apply (response_does_not_depend_on_path lib inherited client now []);
    reflexivity.
Defined.

(** C7, as the library has it: serving changes nothing of the process
    but its standard error, where one line is logged for each request
    that is answered: the environment, the global [port], standard
    output and the listening socket are what they were.  On each
    connection the first request is answered and no other; the answers
    to requests that carry a version are the same up to the [Date]
    field, which follows the clock. *)
Theorem handling_changes_only_the_log
  (lib : Library) (inherited : Clock -> World -> World)
  (incoming : list Connection) (p : Process) :
  Forall asks_GET incoming ->
  let '(responses, p') := serve_forever lib inherited incoming p in
  (environ p' = environ p /\ int_limit p' = int_limit p /\
   port p' = port p /\ stdout p' = stdout p /\
   listening p' = listening p /\ trace p' = trace p) /\
  stderr p' = stderr p ++ concat (map logged incoming) /\
  responses = Ok (map (answer lib) incoming) /\
  forall c1 c2 now1 r1 now2 r2,
    first_request c1 = Some (now1, r1) ->
    first_request c2 = Some (now2, r2) ->
    request_version r1 <> "HTTP/0.9"%string ->
    request_version r2 <> "HTTP/0.9"%string ->
    without_date (answer lib c1) = without_date (answer lib c2) /\
    (date_time_string now1 = date_time_string now2 ->
     answer lib c1 = answer lib c2).
Proof.
  intros H. rewrite (serve_GET lib inherited incoming p H).
  repeat split.
  - unfold answer. rewrite H0, H1. unfold reply.
    apply String.eqb_neq in H2, H3. now rewrite H2, H3.
  - intros Hd. unfold answer. rewrite H0, H1. unfold reply.
    apply String.eqb_neq in H2, H3. rewrite H2, H3.
    unfold greeting, greeting_head. now rewrite Hd.
Qed.

Lemma handling_changes_only_the_log_witness :
  let lib := mkLibrary "Python/3.11.2" (fun _ => Some "OK"%string) in
  let t1 := mkClock "Wed, 04 Nov 2026 16:46:22 GMT" "04/Nov/2026 16:46:22" in
  let t2 := mkClock "Wed, 04 Nov 2026 16:46:23 GMT" "04/Nov/2026 16:46:23" in
  let r := mkRequest "GET" "/" "GET / HTTP/1.1"
             (Some ("HTTP/1.1"%string, (1, 1)))
             [("Connection"%string, "keep-alive"%string)] in
  let incoming := [mkConnection ("127.0.0.1"%string, 50000) [(t1, r); (t1, r)];
                   mkConnection ("127.0.0.1"%string, 50001) [(t2, r)];
                   mkConnection ("127.0.0.1"%string, 50002) []] in
  let inherited := fun (_ : Clock) (w : World) => w in
  let p := snd (main (mkOS (fun _ _ => None) 49152)
                     (boot ∅ default_max_str_digits)) in
  Forall asks_GET incoming /\
  let '(responses, p') := serve_forever lib inherited incoming p in
  (environ p' = environ p /\ int_limit p' = int_limit p /\
   port p' = port p /\ stdout p' = stdout p /\
   listening p' = listening p /\ trace p' = trace p) /\
  stderr p' = stderr p ++ concat (map logged incoming) /\
  responses = Ok (map (answer lib) incoming) /\
  forall c1 c2 now1 r1 now2 r2,
    first_request c1 = Some (now1, r1) ->
    first_request c2 = Some (now2, r2) ->
    request_version r1 <> "HTTP/0.9"%string ->
    request_version r2 <> "HTTP/0.9"%string ->
    without_date (answer lib c1) = without_date (answer lib c2) /\
    (date_time_string now1 = date_time_string now2 ->
     answer lib c1 = answer lib c2).
Proof.
  intros lib t1 t2 r incoming inherited p.
  assert (H : Forall asks_GET incoming)
    by (repeat constructor).
  split; [exact H|].
  exact (handling_changes_only_the_log lib inherited incoming p H).
Defined.

(** C7 as stated fails.  The same GET request is sent twice on one
    connection and once more on a second connection a second later: the
    first connection carries one response, not two; the response on the
    second connection differs from it; and the process is not what it
    was, its standard error has grown. *)
Lemma repeated_requests_are_not_answered_alike :
  let lib := mkLibrary "Python/3.11.2" (fun _ => Some "OK"%string) in
  let t1 := mkClock "Wed, 04 Nov 2026 16:46:22 GMT" "04/Nov/2026 16:46:22" in
  let t2 := mkClock "Wed, 04 Nov 2026 16:46:23 GMT" "04/Nov/2026 16:46:23" in
  let r := mkRequest "GET" "/" "GET / HTTP/1.1"
             (Some ("HTTP/1.1"%string, (1, 1)))
             [("Connection"%string, "keep-alive"%string)] in
  let incoming := [mkConnection ("127.0.0.1"%string, 50000) [(t1, r); (t1, r)];
                   mkConnection ("127.0.0.1"%string, 50001) [(t2, r)]] in
  let inherited := fun (_ : Clock) (w : World) => w in
  let p := snd (main (mkOS (fun _ _ => None) 49152)
                     (boot ∅ default_max_str_digits)) in
  let '(responses, p') := serve_forever lib inherited incoming p in
  responses = Ok [greeting lib t1; greeting lib t2] /\
  greeting lib t1 <> greeting lib t1 ++ greeting lib t1 /\
  greeting lib t1 <> greeting lib t2 /\
  ~ (p' = p).
Proof.
  intros lib t1 t2 r incoming inherited p.
  assert (H : Forall asks_GET incoming) by (repeat constructor).
  rewrite (serve_GET lib inherited incoming p H).
  split; [reflexivity|]. split; [|split].
  - intros E. apply (f_equal (@length chunk)) in E. discriminate E.
  - intros E. apply (f_equal (fun w => nth_error w 2)) in E.
    cbn in E. discriminate E.
  - intros E. apply (f_equal (fun q => length (stderr q))) in E.
    revert E. unfold logs. cbn [stderr]. rewrite length_app.
    cbn [incoming map logged first_request arriving head concat app length].
    lia.
Qed.
(** ** The port and the start-up line *)

Lemma append_empty_r s : s +:+ EmptyString = s.
Proof.
  induction s as [|c s IH]; [reflexivity|].
  change (String c s +:+ EmptyString) with (String c (s +:+ EmptyString)).
  now f_equal.
Qed.

(** An exception of the start-up is the result of the whole program: no
    request is served. *)
Lemma program_raises lib inherited os incoming p0 e p :
  main os p0 = (Raise e, p) ->
  program lib inherited os incoming p0 = (Raise e, p).
Proof. unfold program, mbind, ST_bind. now intros ->. Qed.

(** C1, as the code has it: when [PORT] is set to a string that [int]
    does not parse, the port expression raises [ValueError] and the run
    ends there: no port is resolved (3000 is not used), nothing is
    printed and no bind is attempted. *)
Theorem unparseable_port_raises (os : OS) (env : gmap string string)
  (m : int_max_str_digits) (s : string) :
  env !! "PORT"%string = Some s ->
  (forall n, int_of_str m s <> Ok n) ->
  let '(r, p) := main os (boot env m) in
  r = Raise ValueError /\ port p = None /\ stdout p = EmptyString /\
  listening p = None /\ trace p = [EvInt (PyStr s)].
Proof.
  intros Hs Hn. pose proof (resolve_port_set env m s Hs) as Hr.
  destruct (int_of_str_cases m s) as [[n E]|E]; [now apply Hn in E|].
  rewrite E in Hr. rewrite (main_rejects os env m _ Hr).
  unfold port_argument. rewrite Hs. repeat split.
Qed.

Lemma unparseable_port_raises_witness :
  let env : gmap string string := {["PORT"%string := "abc"%string]} in
  let os := mkOS (fun _ _ => None) 49152 in
  (env !! "PORT"%string = Some "abc"%string /\
   forall n, int_of_str default_max_str_digits "abc" <> Ok n) /\
  let '(r, p) := main os (boot env default_max_str_digits) in
  r = Raise ValueError /\ port p = None /\ stdout p = EmptyString /\
  listening p = None /\ trace p = [EvInt (PyStr "abc")].
Proof.
  intros env os.
  assert (H1 : env !! "PORT"%string = Some "abc"%string) by reflexivity.
  assert (H2 : forall n, int_of_str default_max_str_digits "abc" <> Ok n)
    by (intros n; vm_compute; discriminate).
  split; [split; assumption|].
  exact (unparseable_port_raises os env default_max_str_digits "abc" H1 H2).
Defined.

(** C1 as stated fails: with [PORT=abc] the start-up does not yield 3000;
    it raises and no port is set. *)
Lemma unparseable_port_is_not_defaulted :
  let env : gmap string string := {["PORT"%string := "abc"%string]} in
  let os := mkOS (fun _ _ => None) 49152 in
  (forall n, int_of_str default_max_str_digits "abc" <> Ok n) /\
  ~ (port (snd (main os (boot env default_max_str_digits))) = Some 3000) /\
  ~ (resolve_port env default_max_str_digits = Ok 3000).
Proof.
  intros env os. repeat split.
  - intros n. vm_compute. discriminate.
  - vm_compute. discriminate.
  - vm_compute. discriminate.
Qed.

(** C4: when [PORT] is unset, the port resolved at start-up is 3000, and
    3000 is the port the server asks to bind; it listens there unless the
    operating system refuses. *)
Theorem unset_port_is_3000 (os : OS) (env : gmap string string)
  (m : int_max_str_digits) :
  env !! "PORT"%string = None ->
  let '(r, p) := main os (boot env m) in
  resolve_port env m = Ok 3000 /\ port p = Some 3000 /\
  trace p = [EvInt (PyInt 3000); EvPrint "Server running on port 3000";
             EvBind EmptyString 3000] /\
  r = match bind_errno os EmptyString 3000 with
      | Some errno => Raise (OSError errno)
      | None => Ok tt
      end /\
  listening p = match bind_errno os EmptyString 3000 with
                | Some _ => None
                | None => Some (EmptyString, 3000)
                end.
Proof.
  intros He. pose proof (resolve_port_unset env m He) as Hr.
  rewrite (main_prints os env m 3000 "3000" Hr (str_of_default m)).
  unfold HTTPServer, printed, port_argument. rewrite He.
  change ((3000 <? 0) || (65535 <? 3000)) with false. cbv iota.
  destruct (bind_errno os EmptyString 3000); repeat split; assumption.
Qed.

Lemma unset_port_is_3000_witness :
  let env : gmap string string := {["HOME"%string := "/root"%string]} in
  let os := mkOS (fun _ _ => None) 49152 in
  env !! "PORT"%string = None /\
  let '(r, p) := main os (boot env default_max_str_digits) in
  resolve_port env default_max_str_digits = Ok 3000 /\ port p = Some 3000 /\
  trace p = [EvInt (PyInt 3000); EvPrint "Server running on port 3000";
             EvBind EmptyString 3000] /\
  r = match bind_errno os EmptyString 3000 with
      | Some errno => Raise (OSError errno)
      | None => Ok tt
      end /\
  listening p = match bind_errno os EmptyString 3000 with
                | Some _ => None
                | None => Some (EmptyString, 3000)
                end.
Proof.
  intros env os.
  assert (H : env !! "PORT"%string = None) by reflexivity.
  split; [exact H|].
  exact (unset_port_is_3000 os env default_max_str_digits H).
Defined.

(** C5, as the code has it: when [PORT] is set to a string that [int]
    parses, as ["8080"] is, exactly one line goes to standard output,
    which contains the decimal representation of the parsed number, and
    that number is the port of the one bind the server then asks for.
    When it lies in 1..65535 and the operating system grants the bind,
    the server listens on it; when it is 0 and the bind is granted, the
    server listens on a port the operating system picks; otherwise the
    start-up ends, after the line, with [OverflowError] or [OSError]. *)
Theorem set_port_is_bound_and_printed (os : OS) (env : gmap string string)
  (m : int_max_str_digits) (s : string) (n : Z) :
  env !! "PORT"%string = Some s ->
  int_of_str m s = Ok n ->
  let '(r, p) := main os (boot env m) in
  exists digits,
    str_of_int m n = Ok digits /\ int_of_str m digits = Ok n /\
    split_lines (stdout p) = ["Server running on port " +:+ digits] /\
    contains ("Server running on port " +:+ digits) digits /\
    port p = Some n /\
    bind_events (trace p) = [EvBind EmptyString n] /\
    r = (if (n <? 0) || (65535 <? n) then Raise OverflowError
         else match bind_errno os EmptyString n with
              | Some errno => Raise (OSError errno)
              | None => Ok tt
              end) /\
    listening p = match r with
                  | Ok _ => Some (EmptyString, bound_port os n)
                  | Raise _ => None
                  end /\
    (n <> 0 -> bound_port os n = n) /\
    (n = 0 -> bound_port os n = ephemeral_port os).
Proof.
  intros Hs Hn. pose proof (resolve_port_set env m s Hs) as Hr.
  rewrite Hn in Hr. destruct (str_after_int m s n Hn) as [digits Hd].
  rewrite (main_prints os env m n digits Hr Hd).
  pose proof (HTTPServer_effect os EmptyString n (printed env m n digits))
    as He.
  destruct (HTTPServer os EmptyString n (printed env m n digits)) as [r p].
  destruct He as (Ht & Ho & Hp & Hres & Hl & _).
  exists digits. rewrite Ht, Ho, Hp, Hl.
  repeat split; auto using int_of_str_of_int.
  - now apply startup_line_one with (m := m) (n := n).
  - exists "Server running on port "%string, EmptyString.
    now rewrite append_empty_r.
  - apply bound_port_same.
  - now intros ->.
Qed.

Lemma set_port_is_bound_and_printed_witness :
  let env : gmap string string := {["PORT"%string := "8080"%string]} in
  let os := mkOS (fun _ _ => None) 49152 in
  let m := default_max_str_digits in
  (env !! "PORT"%string = Some "8080"%string /\
   int_of_str m "8080" = Ok 8080) /\
  let '(r, p) := main os (boot env m) in
  exists digits,
    str_of_int m 8080 = Ok digits /\ int_of_str m digits = Ok 8080 /\
    split_lines (stdout p) = ["Server running on port " +:+ digits] /\
    contains ("Server running on port " +:+ digits) digits /\
    port p = Some 8080 /\
    bind_events (trace p) = [EvBind EmptyString 8080] /\
    r = (if (8080 <? 0) || (65535 <? 8080) then Raise OverflowError
         else match bind_errno os EmptyString 8080 with
              | Some errno => Raise (OSError errno)
              | None => Ok tt
              end) /\
    listening p = match r with
                  | Ok _ => Some (EmptyString, bound_port os 8080)
                  | Raise _ => None
                  end /\
    (8080 <> 0 -> bound_port os 8080 = 8080) /\
    (8080 = 0 -> bound_port os 8080 = ephemeral_port os).
Proof.
  intros env os m.
  assert (H1 : env !! "PORT"%string = Some "8080"%string) by reflexivity.
  assert (H2 : int_of_str m "8080" = Ok 8080) by (vm_compute; reflexivity).
  split; [split; assumption|].
  exact (set_port_is_bound_and_printed os env m "8080" 8080 H1 H2).
Defined.

(** C5 as stated fails: ["70000"] is parsed and printed, but the server
    does not bind port 70000, even under an operating system that grants
    every request. *)
Lemma out_of_range_port_is_not_bound :
  let env : gmap string string := {["PORT"%string := "70000"%string]} in
  let os := mkOS (fun _ _ => None) 49152 in
  let m := default_max_str_digits in
  env !! "PORT"%string = Some "70000"%string /\
  int_of_str m "70000" = Ok 70000 /\
  fst (main os (boot env m)) = Raise OverflowError /\
  ~ (listening (snd (main os (boot env m))) = Some (EmptyString, 70000)).
Proof.
  intros env os m. repeat split.
  vm_compute. discriminate.
Qed.

(** C8: when the operating system refuses the bind at start-up (address
    in use, permission denied), the error is the result of the program:
    nothing catches it, the bind is attempted once and is the last thing
    that happens, the process does not listen and serves no request. *)
Theorem bind_failure_is_fatal
  (lib : Library) (inherited : Clock -> World -> World) (os : OS)
  (env : gmap string string) (m : int_max_str_digits) (n errno : Z)
  (incoming : list Connection) :
  resolve_port env m = Ok n ->
  0 <= n <= 65535 ->
  bind_errno os EmptyString n = Some errno ->
  let '(r, p) := program lib inherited os incoming (boot env m) in
  r = Raise (OSError errno) /\
  listening p = None /\
  bind_events (trace p) = [EvBind EmptyString n] /\
  last (trace p) = Some (EvBind EmptyString n).
Proof.
  intros Hr Hn Hb. destruct (resolve_port_prints env m n Hr) as [digits Hd].
  assert (E : main os (boot env m)
              = (Raise (OSError errno),
                 record (EvBind EmptyString n) (printed env m n digits))).
  { rewrite (main_prints os env m n digits Hr Hd). unfold HTTPServer.
    replace ((n <? 0) || (65535 <? n)) with false by lia.
    now rewrite Hb. }
  rewrite (program_raises lib inherited os incoming _ _ _ E).
  repeat split.
Qed.

Lemma bind_failure_is_fatal_witness :
  let env : gmap string string := {["PORT"%string := "8080"%string]} in
  let os := mkOS (fun _ port => if port =? 8080 then Some 98 else None) 49152 in
  let m := default_max_str_digits in
  let lib := mkLibrary "Python/3.11.2" (fun _ => Some "OK"%string) in
  let now := mkClock "Wed, 04 Nov 2026 16:46:22 GMT" "04/Nov/2026 16:46:22" in
  let inherited := fun (_ : Clock) (w : World) => w in
  let incoming :=
    [mkConnection ("127.0.0.1"%string, 50000)
       [(now, mkRequest "GET" "/" "GET / HTTP/1.1"
                (Some ("HTTP/1.1"%string, (1, 1))) [])]] in
  (resolve_port env m = Ok 8080 /\ 0 <= 8080 <= 65535 /\
   bind_errno os EmptyString 8080 = Some 98) /\
  let '(r, p) := program lib inherited os incoming (boot env m) in
  r = Raise (OSError 98) /\
  listening p = None /\
  bind_events (trace p) = [EvBind EmptyString 8080] /\
  last (trace p) = Some (EvBind EmptyString 8080).
Proof.
  intros env os m lib now inherited incoming.
  assert (H1 : resolve_port env m = Ok 8080) by (vm_compute; reflexivity).
  assert (H2 : 0 <= 8080 <= 65535) by lia.
  assert (H3 : bind_errno os EmptyString 8080 = Some 98) by reflexivity.
  split; [exact (conj H1 (conj H2 H3))|].
  exact (bind_failure_is_fatal lib inherited os env m 8080 98 incoming
           H1 H2 H3).
Defined.

(** C9: the start-up happens in a fixed order: the port is parsed, then
    the line is printed, then the bind is attempted.  When parsing fails
    nothing has been printed and no bind is attempted; when the bind
    fails the line is already on standard output; when it succeeds the
    server listens at the port the socket then has. *)
Theorem startup_is_ordered (os : OS) (env : gmap string string)
  (m : int_max_str_digits) :
  let '(r, p) := main os (boot env m) in
  (resolve_port env m = Raise ValueError /\ r = Raise ValueError /\
   trace p = [EvInt (port_argument env)] /\
   stdout p = EmptyString /\ listening p = None)
  \/
  (exists n line,
     resolve_port env m = Ok n /\
     trace p = [EvInt (port_argument env); EvPrint line;
                EvBind EmptyString n] /\
     split_lines (stdout p) = [line] /\
     match r with
     | Ok _ => listening p = Some (EmptyString, bound_port os n)
     | Raise e => listening p = None /\ e <> ValueError
     end).
Proof.
  destruct (resolve_port env m) as [n|e] eqn:Hr.
  - destruct (resolve_port_prints env m n Hr) as [digits Hd].
    rewrite (main_prints os env m n digits Hr Hd).
    pose proof (HTTPServer_effect os EmptyString n (printed env m n digits))
      as He.
    destruct (HTTPServer os EmptyString n (printed env m n digits)) as [r p].
    destruct He as (Ht & Ho & Hp & Hres & Hl & _).
    right. exists n, ("Server running on port " +:+ digits).
    rewrite Ht, Ho, Hl. repeat split.
    + now apply startup_line_one with (m := m) (n := n).
    + destruct r as [u|e]; [reflexivity|]. split; [reflexivity|].
      destruct ((n <? 0) || (65535 <? n));
        [|destruct (bind_errno os EmptyString n)]; congruence.
  - pose proof (resolve_port_raises env m e Hr) as ->.
    rewrite (main_rejects os env m _ Hr). left. repeat split.
Qed.

(** C10: the value of [PORT] is parsed by [int] as it stands.  A value
    that is an integer literal (white space, an optional sign, digits,
    white space), as [" 8080 "] and ["+8080"] are, is accepted and its
    number becomes the port; any other value, as the empty string and
    ["3000.5"] are, is rejected at start-up with [ValueError]. *)
Theorem port_follows_int (os : OS) (env : gmap string string)
  (m : int_max_str_digits) (s : string) :
  env !! "PORT"%string = Some s ->
  resolve_port env m = int_of_str m s /\
  (forall n, denotes m s n ->
     resolve_port env m = Ok n /\
     port (snd (main os (boot env m))) = Some n) /\
  ((forall n, ~ denotes m s n) ->
     main os (boot env m)
     = (Raise ValueError, record (EvInt (PyStr s)) (boot env m))) /\
  denotes m " 8080 " 8080 /\ denotes m "+8080" 8080 /\
  (forall n, ~ denotes m "" n) /\ (forall n, ~ denotes m "3000.5" n).
Proof.
  intros Hs. pose proof (resolve_port_set env m s Hs) as Hr.
  split; [exact Hr|]. split; [|split].
  - intros n Hd. apply int_of_str_denotes in Hd. rewrite Hd in Hr.
    split; [exact Hr|].
    destruct (resolve_port_prints env m n Hr) as [digits Hp].
    rewrite (main_prints os env m n digits Hr Hp).
    pose proof (HTTPServer_effect os EmptyString n (printed env m n digits))
      as He.
    destruct (HTTPServer os EmptyString n (printed env m n digits)) as [r p].
    destruct He as (_ & _ & Hport & _). exact Hport.
  - intros Hn. destruct (int_of_str_cases m s) as [[n E]|E].
    + apply int_of_str_denotes in E. now apply Hn in E.
    + rewrite E in Hr. rewrite (main_rejects os env m _ Hr).
      unfold port_argument. now rewrite Hs.
  - repeat split; try (apply int_of_str_denotes; reflexivity);
      intros n Hd; apply int_of_str_denotes in Hd; discriminate Hd.
Qed.

Lemma port_follows_int_witness :
  let env : gmap string string := {["PORT"%string := " +8_080 "%string]} in
  let os := mkOS (fun _ _ => None) 49152 in
  let m := default_max_str_digits in
  let s := " +8_080 "%string in
  env !! "PORT"%string = Some s /\
  resolve_port env m = int_of_str m s /\
  (forall n, denotes m s n ->
     resolve_port env m = Ok n /\
     port (snd (main os (boot env m))) = Some n) /\
  ((forall n, ~ denotes m s n) ->
     main os (boot env m)
     = (Raise ValueError, record (EvInt (PyStr s)) (boot env m))) /\
  denotes m " 8080 " 8080 /\ denotes m "+8080" 8080 /\
  (forall n, ~ denotes m "" n) /\ (forall n, ~ denotes m "3000.5" n).
Proof.
  intros env os m s.
  assert (H : env !! "PORT"%string = Some s) by reflexivity.
  split; [exact H|].
  exact (port_follows_int os env m s H).
Defined.

(** * Further properties of the program *)

(** ** The port expression (app.py, line 11) *)

Section PortExpression.

(** When both interpreters print the number, they print the same text:
    the limit decides whether [str] answers, not what it answers. *)
Lemma str_of_int_same m1 m2 n d1 d2 :
  str_of_int m1 n = Ok d1 -> str_of_int m2 n = Ok d2 -> d1 = d2.
Proof.
  unfold str_of_int.
  destruct (exceeds m1 _ _); [discriminate|].
  destruct (exceeds m2 _ _); [discriminate|].
  congruence.
Qed.

(** The parser on a string of the shape of a literal: the digit limit
    alone decides between the value and [ValueError]. *)
Lemma long_from_string_shape m ws1 sg sigma body ds ws2 :
  forallb is_space ws1 = true -> sign_of sg sigma -> digit_part body ds ->
  forallb is_space ws2 = true ->
  long_from_string m (ws1 ++ sg ++ body ++ ws2)
  = if exceeds m (length ds) (length ds) then Raise ValueError
    else Ok (sigma * value_of ds).
Proof.
  intros H1 Hs Hb H2.
  destruct (exceeds m (length ds) (length ds)) eqn:Hx.
  - assert (P : forall sign,
               long_from_string_base m sign (body ++ ws2) = Raise ValueError).
    { intros sign. destruct Hb as [c d t ds Hd Ht].
      unfold long_from_string_base.
      change ((c :: t) ++ ws2) with (c :: (t ++ ws2)).
      pose proof (digit_not_underscore _ _ Hd) as Hc.
      cbn [scan_digits]. change (is_underscore "000"%char) with false.
      rewrite Hc, Hd.
      rewrite (scan_digits_complete t ds Ht c ws2 Hc (all_space_stops _ H2)).
      now rewrite (skip_space_all _ H2), Hx. }
    unfold long_from_string. rewrite (skip_space_app _ _ H1).
    destruct Hs; simpl app.
    + pose proof Hb as Hb'. destruct Hb' as [c d t ds Hd Ht].
      change ((c :: t) ++ ws2) with (c :: (t ++ ws2)).
      cbn [skip_space]. rewrite (digit_not_space _ _ Hd).
      destruct (digit_not_sign _ _ Hd) as [-> ->]. apply (P 1).
    + cbn [skip_space]. change (is_space "+"%char) with false. cbv iota.
      change (code "+"%char =? 43)%nat with true. cbv iota. apply P.
    + cbn [skip_space]. change (is_space "-"%char) with false. cbv iota.
      change (code "-"%char =? 43)%nat with false.
      change (code "-"%char =? 45)%nat with true. cbv iota. apply P.
  - apply long_from_string_complete. now constructor.
Qed.

(** The global [port] after the start-up is the value of the port
    expression, and is unset when the expression raised. *)
Lemma main_port os env m :
  port (snd (main os (boot env m)))
  = match resolve_port env m with
    | Ok n => Some n
    | Raise _ => None
    end.
Proof.
  destruct (resolve_port env m) as [n|e] eqn:Hr.
  - destruct (resolve_port_prints env m n Hr) as [digits Hd].
    rewrite (main_prints os env m n digits Hr Hd).
    pose proof (HTTPServer_effect os EmptyString n (printed env m n digits))
      as He.
    destruct (HTTPServer os EmptyString n (printed env m n digits)) as [r p].
    destruct He as (_ & _ & Hp & _). exact Hp.
  - now rewrite (main_rejects os env m _ Hr).
Qed.

End PortExpression.

(** X1: after the start-up the global [port] is [n] exactly when [PORT]
    is unset and [n] is 3000, or [PORT] is set to an integer literal that
    denotes [n]. *)
Theorem port_characterised (os : OS) (env : gmap string string)
  (m : int_max_str_digits) (n : Z) :
  port (snd (main os (boot env m))) = Some n <->
  (env !! "PORT"%string = None /\ n = 3000) \/
  (exists s, env !! "PORT"%string = Some s /\ denotes m s n).
Proof.
  rewrite main_port. unfold resolve_port, port_argument.
  destruct (env !! "PORT"%string) as [s|]; split.
  - destruct (int_of_str m s) as [n'|e] eqn:E; [|discriminate].
    intros H. injection H as <-. right. exists s.
    split; [reflexivity|]. now apply int_of_str_denotes.
  - intros [[H _]|(s' & H & Hd)]; [discriminate|].
    injection H as <-. apply int_of_str_denotes in Hd. now rewrite Hd.
  - unfold int_of_int. intros H. injection H as <-. now left.
  - intros [[_ ->]|(s' & H & _)]; [reflexivity | discriminate].
Qed.

(** X8: a [PORT] that consists of white space only, the empty string
    included, is not taken as absent: the start-up raises [ValueError]
    before anything is printed or bound. *)
Theorem blank_port_is_rejected (os : OS) (env : gmap string string)
  (m : int_max_str_digits) (s : string) :
  env !! "PORT"%string = Some s ->
  forallb py_space (list_ascii_of_string s) = true ->
  let '(r, p) := main os (boot env m) in
  r = Raise ValueError /\ port p = None /\ stdout p = EmptyString /\
  listening p = None /\ bind_events (trace p) = [].
Proof.
  intros Hs Hw. pose proof (resolve_port_set env m s Hs) as Hr.
  assert (E : int_of_str m s = Raise ValueError).
  { unfold int_of_str, long_from_string.
    rewrite skip_space_all by now rewrite forallb_to_ascii.
    reflexivity. }
  rewrite E in Hr. rewrite (main_rejects os env m _ Hr).
  repeat split.
Qed.

Lemma blank_port_is_rejected_witness :
  let env : gmap string string := {["PORT"%string := "  "%string]} in
  let os := mkOS (fun _ _ => None) 49152 in
  let m := default_max_str_digits in
  (env !! "PORT"%string = Some "  "%string /\
   forallb py_space (list_ascii_of_string "  ") = true) /\
  let '(r, p) := main os (boot env m) in
  r = Raise ValueError /\ port p = None /\ stdout p = EmptyString /\
  listening p = None /\ bind_events (trace p) = [].
Proof.
  intros env os m.
  assert (H1 : env !! "PORT"%string = Some "  "%string) by reflexivity.
  assert (H2 : forallb py_space (list_ascii_of_string "  ") = true)
    by reflexivity.
  split; [split; assumption|].
  exact (blank_port_is_rejected os env m "  " H1 H2).
Defined.

(** X9: a [PORT] that is a well-formed literal with more digits than the
    interpreter's limit is rejected all the same: the start-up raises
    [ValueError] and nothing is printed or bound. *)
Theorem overlong_port_is_rejected (os : OS) (env : gmap string string)
  (m : int_max_str_digits) (s : string)
  (ws1 sg body ws2 : list ascii) (sigma : Z) (ds : list nat) :
  env !! "PORT"%string = Some s ->
  list_ascii_of_string s = ws1 ++ sg ++ body ++ ws2 ->
  forallb py_space ws1 = true -> sign_of sg sigma -> digit_part body ds ->
  forallb py_space ws2 = true ->
  exceeds m (length ds) (length ds) = true ->
  let '(r, p) := main os (boot env m) in
  r = Raise ValueError /\ port p = None /\ stdout p = EmptyString /\
  listening p = None /\ bind_events (trace p) = [].
Proof.
  intros Hs El H1 Hsg Hb H2 Hx.
  pose proof (resolve_port_set env m s Hs) as Hr.
  assert (E : int_of_str m s = Raise ValueError).
  { unfold int_of_str. rewrite El, !map_app.
    rewrite (sign_to_ascii _ _ Hsg), (digit_part_to_ascii _ _ Hb).
    rewrite (long_from_string_shape m _ sg sigma body ds _)
      by (try assumption; now rewrite forallb_to_ascii).
    now rewrite Hx. }
  rewrite E in Hr. rewrite (main_rejects os env m _ Hr).
  repeat split.
Qed.

Lemma overlong_port_is_rejected_witness :
  let s := string_of_list_ascii (repeat "1"%char 641) in
  let env : gmap string string := {["PORT"%string := s]} in
  let os := mkOS (fun _ _ => None) 49152 in
  let m := AtMost 0 in
  (env !! "PORT"%string = Some s /\
   list_ascii_of_string s = [] ++ [] ++ repeat "1"%char 641 ++ [] /\
   digit_part (repeat "1"%char 641) (repeat 1%nat 641) /\
   exceeds m (length (repeat 1%nat 641)) (length (repeat 1%nat 641)) = true)
  /\
  let '(r, p) := main os (boot env m) in
  r = Raise ValueError /\ port p = None /\ stdout p = EmptyString /\
  listening p = None /\ bind_events (trace p) = [].
Proof.
  intros s env os m.
  assert (H1 : env !! "PORT"%string = Some s) by apply lookup_singleton_eq.
  assert (H2 : list_ascii_of_string s = [] ++ [] ++ repeat "1"%char 641 ++ [])
    by (vm_compute; reflexivity).
  assert (H3 : digit_part (repeat "1"%char 641) (repeat 1%nat 641)).
  { change (repeat "1"%char 641) with (map digit_char (repeat 1%nat 641)).
    apply digit_part_chars; [discriminate|].
    apply List.Forall_forall. intros d Hd. apply repeat_spec in Hd. lia. }
  assert (H4 : exceeds m (length (repeat 1%nat 641))
                 (length (repeat 1%nat 641)) = true)
    by (vm_compute; reflexivity).
  split; [exact (conj H1 (conj H2 (conj H3 H4)))|].
  exact (overlong_port_is_rejected os env m s [] [] (repeat "1"%char 641) []
           1 (repeat 1%nat 641) H1 H2 eq_refl sign_none H3 eq_refl H4).
Defined.

(** ** The start-up as a whole (app.py, lines 11 to 13) *)

Section Outcome.

(** The constructor of the server never raises [ValueError]. *)
Lemma HTTPServer_not_ValueError os host n p :
  fst (HTTPServer os host n p) <> Raise ValueError.
Proof.
  unfold HTTPServer. destruct ((n <? 0) || (65535 <? n));
    [|destruct (bind_errno os host n)]; discriminate.
Qed.

(** The constructor succeeds exactly on a port in range that the
    operating system grants. *)
Lemma HTTPServer_Ok os host n p :
  fst (HTTPServer os host n p) = Ok tt <->
  0 <= n <= 65535 /\ bind_errno os host n = None.
Proof.
  unfold HTTPServer.
  destruct (Z.ltb_spec n 0); [cbn; split; [discriminate | lia]|].
  destruct (Z.ltb_spec 65535 n); [cbn; split; [discriminate | lia]|].
  cbn [orb]. destruct (bind_errno os host n); cbn [fst]; split.
  - discriminate.
  - intros [_ E]. discriminate E.
  - intros _. split; [lia | reflexivity].
  - reflexivity.
Qed.



End Outcome.

(** X2: the start-up ends in [ValueError] exactly when [PORT] is set to a
    string that is no integer literal; neither printing nor binding ever
    raises it. *)
Theorem startup_ValueError_iff (os : OS) (env : gmap string string)
  (m : int_max_str_digits) :
  fst (main os (boot env m)) = Raise ValueError <->
  exists s, env !! "PORT"%string = Some s /\ forall n, ~ denotes m s n.
Proof.
  split.
  - destruct (resolve_port env m) as [n|e] eqn:Hr.
    + destruct (resolve_port_prints env m n Hr) as [digits Hd].
      rewrite (main_prints os env m n digits Hr Hd). intros H.
      now apply HTTPServer_not_ValueError in H.
    + intros _. unfold resolve_port, port_argument in Hr.
      destruct (env !! "PORT"%string) as [s|]; [|discriminate].
      exists s. split; [reflexivity|]. intros n Hd.
      apply int_of_str_denotes in Hd. congruence.
  - intros (s & Hs & Hn). pose proof (resolve_port_set env m s Hs) as Hr.
    destruct (int_of_str_cases m s) as [[n E]|E].
    + apply int_of_str_denotes in E. now apply Hn in E.
    + rewrite E in Hr. now rewrite (main_rejects os env m _ Hr).
Qed.

(** X3: the start-up succeeds exactly when the port expression yields a
    number in 0..65535 and the operating system grants the bind on it;
    the server then listens on all interfaces, at that number when it is
    not 0 and at the port the operating system picked when it is 0; the
    global [port] holds the number either way. *)
Theorem startup_succeeds_iff (os : OS) (env : gmap string string)
  (m : int_max_str_digits) :
  let '(r, p) := main os (boot env m) in
  (r = Ok tt <->
   exists n, resolve_port env m = Ok n /\ 0 <= n <= 65535 /\
             bind_errno os EmptyString n = None) /\
  (r = Ok tt ->
   exists n, port p = Some n /\
             listening p = Some (EmptyString, bound_port os n) /\
             (n <> 0 -> listening p = Some (EmptyString, n)) /\
             (n = 0 -> listening p = Some (EmptyString, ephemeral_port os))).
Proof.
  destruct (resolve_port env m) as [n|e] eqn:Hr.
  - destruct (resolve_port_prints env m n Hr) as [digits Hd].
    rewrite (main_prints os env m n digits Hr Hd).
    pose proof (HTTPServer_Ok os EmptyString n (printed env m n digits))
      as Hok.
    pose proof (HTTPServer_effect os EmptyString n (printed env m n digits))
      as He.
    destruct (HTTPServer os EmptyString n (printed env m n digits)) as [r p].
    destruct He as (_ & _ & Hp & _ & Hl & _). cbn [fst] in Hok. split.
    + rewrite Hok. split.
      * intros H. exists n. tauto.
      * intros (n' & E & H). injection E as <-. exact H.
    + intros ->. exists n. rewrite Hp, Hl. repeat split.
      * intros H. now rewrite bound_port_same.
      * now intros ->.
  - rewrite (main_rejects os env m _ Hr). split.
    + split; [discriminate|]. intros (n & E & _). discriminate E.
    + discriminate.
Qed.

(** X4: when the port expression yields a number outside 0..65535, the
    line is printed and the start-up then ends in [OverflowError],
    whatever the operating system would answer: nothing listens. *)
Theorem out_of_range_port_overflows (os : OS) (env : gmap string string)
  (m : int_max_str_digits) (n : Z) :
  resolve_port env m = Ok n ->
  n < 0 \/ 65535 < n ->
  let '(r, p) := main os (boot env m) in
  r = Raise OverflowError /\ listening p = None /\ port p = Some n /\
  exists digits,
    str_of_int m n = Ok digits /\
    split_lines (stdout p) = ["Server running on port " +:+ digits].
Proof.
  intros Hr Hn. destruct (resolve_port_prints env m n Hr) as [digits Hd].
  rewrite (main_prints os env m n digits Hr Hd). unfold HTTPServer.
  replace ((n <? 0) || (65535 <? n)) with true by lia.
  repeat split. exists digits. split; [exact Hd|].
  now apply startup_line_one with (m := m) (n := n).
Qed.

Lemma out_of_range_port_overflows_witness :
  let env : gmap string string := {["PORT"%string := "-1"%string]} in
  let os := mkOS (fun _ _ => Some 13) 49152 in
  let m := default_max_str_digits in
  (resolve_port env m = Ok (-1) /\ (-1 < 0 \/ 65535 < -1)) /\
  let '(r, p) := main os (boot env m) in
  r = Raise OverflowError /\ listening p = None /\ port p = Some (-1) /\
  exists digits,
    str_of_int m (-1) = Ok digits /\
    split_lines (stdout p) = ["Server running on port " +:+ digits].
Proof.
  intros env os m.
  assert (H1 : resolve_port env m = Ok (-1)) by (vm_compute; reflexivity).
  assert (H2 : -1 < 0 \/ 65535 < -1) by lia.
  split; [split; assumption|].
  exact (out_of_range_port_overflows os env m (-1) H1 H2).
Defined.



(** X6: what the start-up prints, binds and returns depends on the
    number the port expression yields, not on how [PORT] spells it nor on
    the digit limit the interpreter runs with. *)
Theorem startup_depends_on_number_only (os : OS)
  (env1 env2 : gmap string string) (m1 m2 : int_max_str_digits) (n : Z) :
  resolve_port env1 m1 = Ok n ->
  resolve_port env2 m2 = Ok n ->
  let '(r1, p1) := main os (boot env1 m1) in
  let '(r2, p2) := main os (boot env2 m2) in
  r1 = r2 /\ stdout p1 = stdout p2 /\ port p1 = port p2 /\
  listening p1 = listening p2 /\
  bind_events (trace p1) = bind_events (trace p2).
Proof.
  intros H1 H2.
  destruct (resolve_port_prints env1 m1 n H1) as [d1 Hd1].
  destruct (resolve_port_prints env2 m2 n H2) as [d2 Hd2].
  pose proof (str_of_int_same _ _ _ _ _ Hd1 Hd2) as <-.
  rewrite (main_prints os env1 m1 n d1 H1 Hd1).
  rewrite (main_prints os env2 m2 n d1 H2 Hd2).
  unfold HTTPServer, printed, record.
  destruct ((n <? 0) || (65535 <? n));
    [|destruct (bind_errno os EmptyString n)]; repeat split.
Qed.

Lemma startup_depends_on_number_only_witness :
  let env1 : gmap string string := {["PORT"%string := " +3_000 "%string]} in
  let env2 : gmap string string := ∅ in
  let os := mkOS (fun _ _ => None) 49152 in
  let m1 := default_max_str_digits in
  let m2 := Unlimited in
  (resolve_port env1 m1 = Ok 3000 /\ resolve_port env2 m2 = Ok 3000) /\
  let '(r1, p1) := main os (boot env1 m1) in
  let '(r2, p2) := main os (boot env2 m2) in
  r1 = r2 /\ stdout p1 = stdout p2 /\ port p1 = port p2 /\
  listening p1 = listening p2 /\
  bind_events (trace p1) = bind_events (trace p2).
Proof.
  intros env1 env2 os m1 m2.
  assert (H1 : resolve_port env1 m1 = Ok 3000) by (vm_compute; reflexivity).
  assert (H2 : resolve_port env2 m2 = Ok 3000) by reflexivity.
  split; [split; assumption|].
  exact (startup_depends_on_number_only os env1 env2 m1 m2 3000 H1 H2).
Defined.

(** X7: the number on the start-up line can be fed back: a run with
    [PORT] set to the digits that were printed resolves the same port. *)
Theorem printed_port_reads_back (os : OS) (env : gmap string string)
  (m : int_max_str_digits) (n : Z) :
  resolve_port env m = Ok n ->
  exists digits,
    stdout (snd (main os (boot env m)))
    = ("Server running on port " +:+ digits)
      +:+ String "010"%char EmptyString /\
    port (snd (main os (boot (<["PORT"%string := digits]> env) m)))
    = Some n.
Proof.
  intros Hr. destruct (resolve_port_prints env m n Hr) as [digits Hd].
  exists digits. split.
  - rewrite (main_prints os env m n digits Hr Hd).
    pose proof (HTTPServer_effect os EmptyString n (printed env m n digits))
      as He.
    destruct (HTTPServer os EmptyString n (printed env m n digits)) as [r p].
    destruct He as (_ & Ho & _). exact Ho.
  - rewrite main_port.
    rewrite (resolve_port_set _ m digits) by apply lookup_insert_eq.
    now rewrite (int_of_str_of_int m n digits Hd).
Qed.

Lemma printed_port_reads_back_witness :
  let env : gmap string string := {["PORT"%string := " +08_080 "%string]} in
  let os := mkOS (fun _ _ => None) 49152 in
  let m := default_max_str_digits in
  resolve_port env m = Ok 8080 /\
  exists digits,
    stdout (snd (main os (boot env m)))
    = ("Server running on port " +:+ digits)
      +:+ String "010"%char EmptyString /\
    port (snd (main os (boot (<["PORT"%string := digits]> env) m)))
    = Some 8080.
Proof.
  intros env os m.
  assert (H : resolve_port env m = Ok 8080) by (vm_compute; reflexivity).
  split; [exact H|].
  exact (printed_port_reads_back os env m 8080 H).
Defined.

(** ** The handler (app.py, lines 4 to 9) *)

(** X10: [do_GET] on any handler that holds a request, whatever was
    written or buffered before: it does not raise; it logs one line with
    code 200 on standard error and leaves the rest of the process alone;
    it does not touch the request nor [close_connection].  For a request
    with a version other than HTTP/0.9 it writes what was buffered, the
    status line, the [Server], [Date] and [Content-type] fields, the blank
    line and the body, and leaves the buffer empty; for a request of
    HTTP/0.9 it writes the body alone and leaves the buffer as it was. *)
Theorem do_GET_writes_one_response (lib : Library) (now : Clock)
  (w : World) (r : Request) :
  request (self w) = Some r ->
  let '(res, w') := do_GET lib now w in
  res = Ok tt /\
  process w'
  = log (LogRequest (fst (client_address (self w)))
           (log_date_time_string now) (requestline r) 200) (process w) /\
  client_address (self w') = client_address (self w) /\
  request (self w') = request (self w) /\
  close_connection (self w') = close_connection (self w) /\
  (request_version r <> "HTTP/0.9"%string ->
   wfile (self w')
   = wfile (self w) ++ map Head (default [] (headers_buffer (self w)))
       ++ greeting lib now /\
   headers_buffer (self w') = Some []) /\
  (request_version r = "HTTP/0.9"%string ->
   wfile (self w') = wfile (self w) ++ [Body "<h1>Hello from Python!</h1>"] /\
   headers_buffer (self w') = headers_buffer (self w)).
Proof.
  intros Hr. rewrite (do_GET_run lib now w r Hr).
  cbn [process self client_address request close_connection wfile
       headers_buffer].
  repeat split; try (symmetry; exact Hr).
  - apply String.eqb_neq in H. rewrite H. unfold greeting.
    now rewrite map_app, <- app_assoc.
  - apply String.eqb_neq in H. now rewrite H.
  - apply String.eqb_eq in H. now rewrite H.
  - apply String.eqb_eq in H. now rewrite H.
Qed.

Lemma do_GET_writes_one_response_witness :
  let lib := mkLibrary "Python/3.11.2" (fun _ => Some "OK"%string) in
  let now := mkClock "Wed, 04 Nov 2026 16:46:22 GMT" "04/Nov/2026 16:46:22" in
  let r := mkRequest "GET" "/" "GET / HTTP/1.1"
             (Some ("HTTP/1.1"%string, (1, 1)))
             [("Connection"%string, "keep-alive"%string)] in
  let w := mkWorld (boot ∅ default_max_str_digits)
             (mkHandler ("127.0.0.1"%string, 50000) (Some r) false
                (Some [HeaderLine "X-Earlier" "1"]) [Body "earlier output"]) in
  request (self w) = Some r /\
  let '(res, w') := do_GET lib now w in
  res = Ok tt /\
  process w'
  = log (LogRequest (fst (client_address (self w)))
           (log_date_time_string now) (requestline r) 200) (process w) /\
  client_address (self w') = client_address (self w) /\
  request (self w') = request (self w) /\
  close_connection (self w') = close_connection (self w) /\
  (request_version r <> "HTTP/0.9"%string ->
   wfile (self w')
   = wfile (self w) ++ map Head (default [] (headers_buffer (self w)))
       ++ greeting lib now /\
   headers_buffer (self w') = Some []) /\
  (request_version r = "HTTP/0.9"%string ->
   wfile (self w') = wfile (self w) ++ [Body "<h1>Hello from Python!</h1>"] /\
   headers_buffer (self w') = headers_buffer (self w)).
Proof.
  intros lib now r w.
  assert (H : request (self w) = Some r) by reflexivity.
  split; [exact H|].
  exact (do_GET_writes_one_response lib now w r H).
Defined.

(** X12: a connection gets one response.  When the first request on a
    connection is a GET, whatever its version and its [Connection] field,
    what goes out and what is logged is the same as if nothing else had
    arrived on the connection: the requests behind it are never read. *)
Theorem one_response_per_connection
  (lib : Library) (inherited : Clock -> World -> World)
  (client : string * Z) (now : Clock) (r : Request)
  (rest : list (Clock * Request)) (p : Process) :
  command r = "GET"%string ->
  finish_request lib inherited (mkConnection client ((now, r) :: rest)) p
  = finish_request lib inherited (mkConnection client [(now, r)]) p /\
  fst (finish_request lib inherited
         (mkConnection client ((now, r) :: rest)) p)
  = Ok (reply lib now r) /\
  stderr (snd (finish_request lib inherited
                 (mkConnection client ((now, r) :: rest)) p))
  = stderr p ++ [LogRequest (fst client) (log_date_time_string now)
                   (requestline r) 200].
Proof.
  intros Hc.
  rewrite (finish_request_GET lib inherited
             (mkConnection client ((now, r) :: rest)) now r rest p eq_refl Hc).
  rewrite (finish_request_GET lib inherited
             (mkConnection client [(now, r)]) now r [] p eq_refl Hc).
  repeat split.
Qed.

Lemma one_response_per_connection_witness :
  let lib := mkLibrary "Python/3.11.2" (fun _ => Some "OK"%string) in
  let t1 := mkClock "Wed, 04 Nov 2026 16:46:22 GMT" "04/Nov/2026 16:46:22" in
  let t2 := mkClock "Wed, 04 Nov 2026 16:46:23 GMT" "04/Nov/2026 16:46:23" in
  let r := mkRequest "GET" "/" "GET / HTTP/1.1"
             (Some ("HTTP/1.1"%string, (1, 1)))
             [("Connection"%string, "keep-alive"%string)] in
  let client := ("127.0.0.1"%string, 50000) in
  let inherited := fun (_ : Clock) (w : World) => w in
  let p := boot ∅ default_max_str_digits in
  command r = "GET"%string /\
  finish_request lib inherited (mkConnection client [(t1, r); (t2, r)]) p
  = finish_request lib inherited (mkConnection client [(t1, r)]) p /\
  fst (finish_request lib inherited
         (mkConnection client [(t1, r); (t2, r)]) p)
  = Ok (reply lib t1 r) /\
  stderr (snd (finish_request lib inherited
                 (mkConnection client [(t1, r); (t2, r)]) p))
  = stderr p ++ [LogRequest (fst client) (log_date_time_string t1)
                   (requestline r) 200].
Proof.
  intros lib t1 t2 r client inherited p.
  assert (H : command r = "GET"%string) by reflexivity.
  split; [exact H|].
  exact (one_response_per_connection lib inherited client t1 r [(t2, r)] p H).
Defined.

(** ** The whole program *)

(** X11: when the start-up succeeds and connections come in on which a
    GET is asked first, the program answers each connection, in order,
    with the response to that request, logs one line for each on
    standard error, is listening on the port it was given (on the one the
    operating system picked when that is 0), and its standard output is
    still the one start-up line: serving prints nothing there. *)
Theorem program_serves_greetings
  (lib : Library) (inherited : Clock -> World -> World) (os : OS)
  (env : gmap string string) (m : int_max_str_digits) (n : Z)
  (incoming : list Connection) :
  resolve_port env m = Ok n ->
  0 <= n <= 65535 ->
  bind_errno os EmptyString n = None ->
  Forall asks_GET incoming ->
  let '(r, p) := program lib inherited os incoming (boot env m) in
  r = Ok (map (answer lib) incoming) /\
  listening p = Some (EmptyString, bound_port os n) /\ port p = Some n /\
  stderr p = concat (map logged incoming) /\
  exists digits,
    str_of_int m n = Ok digits /\
    split_lines (stdout p) = ["Server running on port " +:+ digits].
Proof.
  intros Hr Hn Hb Hg.
  destruct (resolve_port_prints env m n Hr) as [digits Hd].
  unfold program, mbind, ST_bind.
  rewrite (main_prints os env m n digits Hr Hd). unfold HTTPServer.
  replace ((n <? 0) || (65535 <? n)) with false by lia. rewrite Hb.
  rewrite (serve_GET lib inherited incoming _ Hg).
  repeat split. exists digits. split; [exact Hd|].
  now apply startup_line_one with (m := m) (n := n).
Qed.

Lemma program_serves_greetings_witness :
  let env : gmap string string := {["PORT"%string := "8080"%string]} in
  let os := mkOS (fun _ port => if port =? 3000 then Some 98 else None) 49152 in
  let m := default_max_str_digits in
  let lib := mkLibrary "Python/3.11.2" (fun _ => Some "OK"%string) in
  let t1 := mkClock "Wed, 04 Nov 2026 16:46:22 GMT" "04/Nov/2026 16:46:22" in
  let t2 := mkClock "Wed, 04 Nov 2026 16:46:23 GMT" "04/Nov/2026 16:46:23" in
  let inherited := fun (_ : Clock) (w : World) => w in
  let incoming :=
    [mkConnection ("127.0.0.1"%string, 50000)
       [(t1, mkRequest "GET" "/" "GET / HTTP/1.1"
               (Some ("HTTP/1.1"%string, (1, 1))) [])];
     mkConnection ("127.0.0.1"%string, 50001)
       [(t2, mkRequest "GET" "/favicon.ico" "GET /favicon.ico"
               None [])]] in
  (resolve_port env m = Ok 8080 /\ 0 <= 8080 <= 65535 /\
   bind_errno os EmptyString 8080 = None /\ Forall asks_GET incoming) /\
  let '(r, p) := program lib inherited os incoming (boot env m) in
  r = Ok (map (answer lib) incoming) /\
  listening p = Some (EmptyString, bound_port os 8080) /\
  port p = Some 8080 /\
  stderr p = concat (map logged incoming) /\
  exists digits,
    str_of_int m 8080 = Ok digits /\
    split_lines (stdout p) = ["Server running on port " +:+ digits].
Proof.
  intros env os m lib t1 t2 inherited incoming.
  assert (H1 : resolve_port env m = Ok 8080) by (vm_compute; reflexivity).
  assert (H2 : 0 <= 8080 <= 65535) by lia.
  assert (H3 : bind_errno os EmptyString 8080 = None) by reflexivity.
  assert (H4 : Forall asks_GET incoming) by (repeat constructor).
  split; [exact (conj H1 (conj H2 (conj H3 H4)))|].
  exact (program_serves_greetings lib inherited os env m 8080 incoming
           H1 H2 H3 H4).
Defined.
